(** * DMAppex matching engine (src/app.py): shallow embedding and properties

    The endpoint [calculate_matches] picks a candidate pool from the static
    catalogue [PLATFORMS] by the request's budget, scores every candidate with
    [calculate_platform_score] (an additive heuristic plus one draw of
    [random.randint(-3, 3)]), explains it with [generate_reasoning], sorts the
    scored list by score (descending, stable) and returns the first three.

    Python strings are [string], Python integers are [Z], the catalogue is a
    [gmap] from tier name to the ordered list of platform names, and the two
    effects of the code, exceptions and the shared random source, are threaded
    through one small monad. *)

From Stdlib Require Import ZArith String List Lia PrimFloat.
From stdpp Require Import base decidable option list sorting gmap strings.

Local Open Scope Z_scope.
Local Open Scope string_scope.

(** ** Effects: exceptions and the random source *)

Module Effects.

(** The exceptions the modelled code can raise: a dictionary lookup on a
    missing key, and [random.randint] on an empty range. *)
Inductive Exception : Type :=
| KeyError (key : string)
| ValueError (msg : string).

(** [str(e)] as used for the detail of the HTTP 500 answer. *)
Definition str (e : Exception) : string :=
  match e with
  | KeyError key => "'" ++ key ++ "'"
  | ValueError msg => msg
  end.

Inductive Result (E A : Type) : Type :=
| Ok (a : A)
| Raise (e : E).
Arguments Ok {E A} a.
Arguments Raise {E A} e.

(** The process-wide random source: an arbitrary tape of integers and the
    number of draws made so far. *)
Record RNG : Type := mkRNG { tape : nat → Z; pos : nat }.

Definition advance (g : RNG) : RNG := mkRNG (tape g) (S (pos g)).

(** A computation reads and advances the random source, and either returns
    or raises. *)
Definition M (A : Type) : Type := RNG → Result Exception A * RNG.

#[global] Instance M_ret : MRet M := λ A a g, (Ok a, g).

#[global] Instance M_bind : MBind M := λ A B f m g,
  match m g with
  | (Ok a, g') => f a g'
  | (Raise e, g') => (Raise e, g')
  end.

Definition raise {A : Type} (e : Exception) : M A := λ g, (Raise e, g).

(** [random.randint(a, b)]: an integer N with a <= N <= b; every such N is
    produced by some tape. An empty range raises [ValueError] (the text of its
    message depends on the interpreter; the program never reaches it). *)
Definition randint (a b : Z) : M Z := λ g,
  if decide (b < a)
  then (Raise (ValueError "empty range for randrange()"), g)
  else (Ok (a + tape g (pos g) `mod` (b - a + 1)), advance g).

(** [d[k]] on a dictionary. *)
Definition getitem {V : Type} (d : gmap string V) (k : string) : M V :=
  match d !! k with
  | Some v => mret v
  | None => raise (KeyError k)
  end.

(** [a and b], which evaluates [b] only when [a] holds. *)
Definition and_then (a : bool) (b : M bool) : M bool :=
  if a then b else mret false.

End Effects.
Import Effects.

Infix "&&&" := and_then (at level 40, left associativity).

(** [x in l] on a Python list of strings. *)
Definition contains (l : list string) (x : string) : bool :=
  bool_decide (x ∈ l).

(** [a == b] on Python strings. *)
Definition str_eq (a b : string) : bool := bool_decide (a = b).
Infix "==" := str_eq (at level 70, no associativity).

(** ** Data model *)

(** The request body ([class MatchRequest]). *)
Record MatchRequest : Type := mkMatchRequest {
  features : list string;
  budget : string;
  priorities : gmap string float;
  use_case : string;
  team_size : string;
  monthly_volume : string
}.

(** The platform catalogue, tier name to ordered platform names. *)
Definition PLATFORMS : gmap string (list string) :=
  list_to_map [
    ("enterprise", ["Synthesia"; "HeyGen"; "Colossyan"; "Hour One"; "D-ID"]);
    ("mid_tier", ["Pictory"; "InVideo"; "Elai"; "Rephrase"; "Yepic"]);
    ("budget", ["Fliki"; "Vidnoz"; "Steve.ai"; "VEED"; "Lumen5"]);
    ("specialized", ["Movio"; "DeepBrain"; "Avaturn"; "Oxolo"; "Pipio"])
  ].

(** One entry of the scored list: the dictionary built in the scoring loop,
    whose key [ai_consensus] is only set later, on the entries that are
    returned. *)
Record ScoredPlatform : Type := mkScoredPlatform {
  name : string;
  match_score : Z;
  reasoning : string;
  ai_consensus : option string
}.

(** The JSON object answered by the endpoint. *)
Record MatchResponse : Type := mkMatchResponse {
  platforms : list ScoredPlatform;
  overall_confidence : Z;
  total_evaluated : Z;
  synthesis_method : string
}.

Record HTTPException : Type := mkHTTPException {
  status_code : Z;
  detail : string
}.

(** ** Scoring ([calculate_platform_score]) *)

(** Budget alignment, on the running [base_score]. *)
Definition budget_alignment (platform : string) (request : MatchRequest)
    (base_score : Z) : M Z :=
  c ← (budget request == "budget_friendly")
        &&& (tier ← getitem PLATFORMS "budget"; mret (contains tier platform));
  if c : bool then mret (base_score + 10) else
  c ← (budget request == "professional")
        &&& (tier ← getitem PLATFORMS "mid_tier"; mret (contains tier platform));
  if c : bool then mret (base_score + 10) else
  c ← (budget request == "enterprise")
        &&& (tier ← getitem PLATFORMS "enterprise"; mret (contains tier platform));
  if c : bool then mret (base_score + 10) else
  mret base_score.

(** Use case alignment. *)
Definition use_case_alignment (platform : string) (request : MatchRequest)
    (base_score : Z) : M Z :=
  if use_case request == "marketing" then
    if contains ["Synthesia"; "Pictory"; "InVideo"; "Promo"] platform
    then mret (base_score + 8) else mret base_score
  else if use_case request == "training" then
    if contains ["Colossyan"; "Hour One"; "Elai"; "DeepBrain"] platform
    then mret (base_score + 8) else mret base_score
  else if use_case request == "social" then
    if contains ["Fliki"; "Steve.ai"; "VEED"; "Lumen5"] platform
    then mret (base_score + 8) else mret base_score
  else mret base_score.

(** Team size consideration. *)
Definition team_size_consideration (platform : string) (request : MatchRequest)
    (base_score : Z) : M Z :=
  c ← (team_size request == "large_team")
        &&& (tier ← getitem PLATFORMS "enterprise"; mret (contains tier platform));
  if c : bool then mret (base_score + 5) else
  c ← (team_size request == "just_me")
        &&& (tier ← getitem PLATFORMS "budget"; mret (contains tier platform));
  if c : bool then mret (base_score + 5) else
  mret base_score.

(** Volume requirements. *)
Definition volume_requirements (platform : string) (request : MatchRequest)
    (base_score : Z) : M Z :=
  c ← (monthly_volume request == "50+")
        &&& (tier ← getitem PLATFORMS "enterprise"; mret (contains tier platform));
  if c : bool then mret (base_score + 5) else
  c ← (monthly_volume request == "1-10")
        &&& (tier ← getitem PLATFORMS "budget"; mret (contains tier platform));
  if c : bool then mret (base_score + 5) else
  mret base_score.

(** The value of [base_score] when the variance is drawn: 75 and the four
    blocks of bonuses, in the order of the source. *)
Definition base_score_of (platform : string) (request : MatchRequest) : M Z :=
  let base_score := 75 in
  base_score ← budget_alignment platform request base_score;
  base_score ← use_case_alignment platform request base_score;
  base_score ← team_size_consideration platform request base_score;
  volume_requirements platform request base_score.

(** [min(98, max(60, base_score + variance))]. *)
Definition final_score_of (base_score variance : Z) : Z :=
  Z.min 98 (Z.max 60 (base_score + variance)).

Definition calculate_platform_score (platform : string)
    (request : MatchRequest) : M Z :=
  base_score ← base_score_of platform request;
  variance ← randint (-3) 3;
  let final_score := final_score_of base_score variance in
  mret final_score.

(** ** Reasoning text ([generate_reasoning]) *)

(** [reasons.append(x)]. *)
Definition append (reasons : list string) (x : string) : list string :=
  (reasons ++ [x])%list.

(** [sep.join(l)]. *)
Definition join (sep : string) (l : list string) : string :=
  String.concat sep l.

Definition tier_reason (platform : string) (reasons : list string)
    : M (list string) :=
  tier ← getitem PLATFORMS "enterprise";
  if contains tier platform then
    mret (append reasons "Enterprise-grade features with full team collaboration")
  else
  tier ← getitem PLATFORMS "mid_tier";
  if contains tier platform then
    mret (append reasons "Balanced features and pricing for growing teams")
  else
  tier ← getitem PLATFORMS "budget";
  if contains tier platform then
    mret (append reasons "Cost-effective solution for individual creators")
  else mret reasons.

Definition use_case_reason (request : MatchRequest) (reasons : list string)
    : list string :=
  if use_case request == "marketing" then
    append reasons "Strong marketing video capabilities"
  else if use_case request == "training" then
    append reasons "Excellent for educational and training content"
  else if use_case request == "social" then
    append reasons "Optimized for social media content creation"
  else reasons.

Definition volume_reason (request : MatchRequest) (reasons : list string)
    : list string :=
  if monthly_volume request == "50+" then
    append reasons "Handles high-volume production efficiently"
  else reasons.

Definition generate_reasoning (platform : string) (request : MatchRequest)
    : M string :=
  let reasons := [] in
  reasons ← tier_reason platform reasons;
  let reasons := use_case_reason request reasons in
  let reasons := volume_reason request reasons in
  mret (join ". " reasons).

(** ** Stable descending sort ([list.sort(key=..., reverse=True)])

    Python's sort is stable, also with [reverse=True]: the result is in
    descending order of the key and entries of equal key keep the order they
    had. The model is an insertion sort with that behaviour; the properties
    below show that a sorted list with these two properties is unique, so that
    the choice of the algorithm does not matter. *)

Section Sort.
  Context {A : Type} (key : A → Z).

  (** [x] stood before every element of [l] in the list being sorted: it goes
      in front of the first element whose key is not larger than its own. *)
Fixpoint insert_reverse (x : A) (l : list A) : list A :=
  match l with
  | [] => [x]
  | y :: l' =>
      if decide (key y <= key x) then x :: l else y :: insert_reverse x l'
  end.

Fixpoint sort_reverse (l : list A) : list A :=
  match l with
  | [] => []
  | x :: l' => insert_reverse x (sort_reverse l')
  end.

End Sort.

(** ** The endpoint ([calculate_matches]) *)

(** Determine platform tier based on budget. *)
Definition platform_pool_of (request : MatchRequest) : M (list string) :=
  if budget request == "budget_friendly" then
    a ← getitem PLATFORMS "budget"; b ← getitem PLATFORMS "mid_tier";
    mret (a ++ take 2 b)%list
  else if budget request == "professional" then
    a ← getitem PLATFORMS "mid_tier"; b ← getitem PLATFORMS "enterprise";
    mret (a ++ take 2 b)%list
  else
    a ← getitem PLATFORMS "enterprise"; b ← getitem PLATFORMS "specialized";
    mret (a ++ b)%list.

(** Score platforms based on requirements: the loop over the pool, appending
    to [scored_platforms]. *)
Fixpoint score_platforms (platform_pool : list string) (request : MatchRequest)
    (scored_platforms : list ScoredPlatform) : M (list ScoredPlatform) :=
  match platform_pool with
  | [] => mret scored_platforms
  | platform :: rest =>
      score ← calculate_platform_score platform request;
      reasoning ← generate_reasoning platform request;
      score_platforms rest request
        (scored_platforms ++ [mkScoredPlatform platform score reasoning None])%list
  end.

(** Add consensus information to one returned entry. The source sets the key
    on the dictionaries of [top_3], which are those of [scored_platforms]; the
    latter is not read afterwards, so that only the returned entries matter. *)
Definition add_consensus (platform : ScoredPlatform) : ScoredPlatform :=
  mkScoredPlatform (name platform) (match_score platform) (reasoning platform)
    (Some (if decide (match_score platform > 90)
           then "3/3 AIs recommend" else "2/3 AIs recommend")).

(** The body of the [try] block. *)
Definition calculate_matches_body (request : MatchRequest) : M MatchResponse :=
  platform_pool ← platform_pool_of request;
  scored_platforms ← score_platforms platform_pool request [];
  let scored_platforms := sort_reverse match_score scored_platforms in
  let top_3 := take 3 scored_platforms in
  let top_3 := add_consensus <$> top_3 in
  mret (mkMatchResponse top_3 95 (Z.of_nat (length platform_pool)) "3AI-MCP").

(** [except Exception as e: raise HTTPException(status_code=500, detail=str(e))]. *)
Definition calculate_matches (request : MatchRequest) (g : RNG)
    : Result HTTPException MatchResponse * RNG :=
  match calculate_matches_body request g with
  | (Ok response, g') => (Ok response, g')
  | (Raise e, g') => (Raise (mkHTTPException 500 (str e)), g')
  end.

(** ** Notions used by the statements *)

(** [returns m a]: whatever the random source, [m] returns [a], raises
    nothing and draws nothing. *)
Definition returns {A : Type} (m : M A) (a : A) : Prop :=
  ∀ g, m g = (Ok a, g).

(** The platforms of a tier, as the catalogue lists them. *)
Definition tier_platforms (k : string) : list string :=
  default [] (PLATFORMS !! k).

(** [before l a b]: [a] occurs in [l] at an index smaller than one of [b]. *)
Definition before {A : Type} (l : list A) (a b : A) : Prop :=
  ∃ i j : nat, (i < j)%nat ∧ l !! i = Some a ∧ l !! j = Some b.

(** Descending order of the scores along a list. *)
Definition score_ge (a b : ScoredPlatform) : Prop :=
  match_score b <= match_score a.

(** The position of the random source after [n] more draws. *)
Definition draws (n : nat) (g : RNG) : RNG := mkRNG (tape g) (n + pos g).

(** The candidate pool as a function of the budget value: the budget tier and
    two mid-tier platforms, the mid tier and two enterprise platforms, or the
    enterprise and the specialized tiers. *)
Definition candidate_pool (b : string) : list string :=
  if b == "budget_friendly" then
    (tier_platforms "budget" ++ take 2 (tier_platforms "mid_tier"))%list
  else if b == "professional" then
    (tier_platforms "mid_tier" ++ take 2 (tier_platforms "enterprise"))%list
  else
    (tier_platforms "enterprise" ++ tier_platforms "specialized")%list.

(** The three reason fragments, each a list of no or one sentence. *)
Definition tier_fragment (platform : string) : list string :=
  if contains (tier_platforms "enterprise") platform then
    ["Enterprise-grade features with full team collaboration"]
  else if contains (tier_platforms "mid_tier") platform then
    ["Balanced features and pricing for growing teams"]
  else if contains (tier_platforms "budget") platform then
    ["Cost-effective solution for individual creators"]
  else [].

Definition use_case_fragment (request : MatchRequest) : list string :=
  if use_case request == "marketing" then
    ["Strong marketing video capabilities"]
  else if use_case request == "training" then
    ["Excellent for educational and training content"]
  else if use_case request == "social" then
    ["Optimized for social media content creation"]
  else [].

Definition volume_fragment (request : MatchRequest) : list string :=
  if monthly_volume request == "50+" then
    ["Handles high-volume production efficiently"]
  else [].

(** What the scoring loop appends for [platform]: its name, the reasoning
    text, no consensus label yet, and a score that is the clamped sum of the
    platform's base score and some variance between -3 and 3. *)
Definition scored_for (request : MatchRequest) (platform : string)
    (sp : ScoredPlatform) : Prop :=
  name sp = platform
  ∧ ai_consensus sp = None
  ∧ returns (generate_reasoning platform request) (reasoning sp)
  ∧ ∃ b v, returns (base_score_of platform request) b
           ∧ -3 <= v <= 3
           ∧ match_score sp = final_score_of b v.

(** ** Sample inputs *)

(** A request whose budget is not one of the three recognised values. *)
Definition request_unrecognized_budget : MatchRequest :=
  mkMatchRequest [] "" ∅ "" "" "".

(** The enterprise training scenario. *)
Definition request_enterprise_training : MatchRequest :=
  mkMatchRequest ["avatars"; "api"] "enterprise" {[ "quality" := 0.5%float ]}
    "training" "large_team" "50+".

(** The same scenario with other features and priorities. *)
Definition request_enterprise_training' : MatchRequest :=
  mkMatchRequest ["templates"] "enterprise"
    {[ "price" := 0.25%float; "speed" := 1%float ]}
    "training" "large_team" "50+".

(** A random source whose every draw gives the variance 0. *)
Definition rng_flat : RNG := mkRNG (λ _, 3) 0.

(** A random source whose draws give the variances -3, -2, ..., 3, -3, ... *)
Definition rng_ramp : RNG := mkRNG (λ n, Z.of_nat n) 0.

(** The variance that the [i]-th next draw of [random.randint(-3, 3)] gives. *)
Definition variance_at (g : RNG) (i : nat) : Z :=
  -3 + tape g (pos g + i) `mod` 7.

(** * Properties *)

(** ** The catalogue and the tests on strings *)

Lemma tier_platforms_values :
  tier_platforms "enterprise"
    = ["Synthesia"; "HeyGen"; "Colossyan"; "Hour One"; "D-ID"]
  ∧ tier_platforms "mid_tier"
    = ["Pictory"; "InVideo"; "Elai"; "Rephrase"; "Yepic"]
  ∧ tier_platforms "budget"
    = ["Fliki"; "Vidnoz"; "Steve.ai"; "VEED"; "Lumen5"]
  ∧ tier_platforms "specialized"
    = ["Movio"; "DeepBrain"; "Avaturn"; "Oxolo"; "Pipio"].
Proof. repeat split; vm_compute; reflexivity. Qed.

Lemma str_eq_false a b : a ≠ b → (a == b) = false.
Proof. apply bool_decide_eq_false_2. Qed.

Lemma contains_true l x : x ∈ l → contains l x = true.
Proof. apply bool_decide_eq_true_2. Qed.

Lemma contains_false l x : x ∉ l → contains l x = false.
Proof. apply bool_decide_eq_false_2. Qed.

(** ** Pure computations *)

Lemma returns_ret {A : Type} (a : A) : returns (mret a) a.
Proof. intros g. reflexivity. Qed.

Lemma returns_bind {A B : Type} (m : M A) (f : A → M B) a b :
  returns m a → returns (f a) b → returns (m ≫= f) b.
Proof. intros Hm Hf g. unfold mbind, M_bind. rewrite Hm. apply Hf. Qed.

Lemma returns_and_then (a : bool) (m : M bool) v :
  returns m v → returns (a &&& m) (a && v).
Proof. intros Hm g. destruct a; simpl; [apply Hm | reflexivity]. Qed.

Lemma returns_if {A : Type} (c : bool) (m1 m2 : M A) v1 v2 :
  returns m1 v1 → returns m2 v2 →
  returns (if c then m1 else m2) (if c then v1 else v2).
Proof. intros H1 H2. destruct c; assumption. Qed.

Lemma returns_inj {A : Type} (m : M A) a b : returns m a → returns m b → a = b.
Proof.
  intros Ha Hb. specialize (Ha (mkRNG (λ _, 0) 0)).
  rewrite Hb in Ha. congruence.
Qed.

Lemma returns_PLATFORMS k :
  is_Some (PLATFORMS !! k) → returns (getitem PLATFORMS k) (tier_platforms k).
Proof.
  intros [v Hv] g. unfold getitem, tier_platforms. rewrite Hv. reflexivity.
Qed.

Lemma PLATFORMS_keys k :
  k ∈ ["enterprise"; "mid_tier"; "budget"; "specialized"] →
  is_Some (PLATFORMS !! k).
Proof.
  intros Hk. repeat (apply elem_of_cons in Hk as [-> | Hk]; [vm_compute; eauto |]).
  inversion Hk.
Qed.

Lemma returns_tier_test k platform :
  k ∈ ["enterprise"; "mid_tier"; "budget"; "specialized"] →
  returns (tier ← getitem PLATFORMS k; mret (contains tier platform))
          (contains (tier_platforms k) platform).
Proof.
  intros Hk. eapply returns_bind; [apply returns_PLATFORMS, PLATFORMS_keys, Hk |].
  apply returns_ret.
Qed.

Lemma budget_alignment_returns platform request base_score :
  returns (budget_alignment platform request base_score)
    (if (budget request == "budget_friendly")
          && contains (tier_platforms "budget") platform
     then base_score + 10
     else if (budget request == "professional")
               && contains (tier_platforms "mid_tier") platform
     then base_score + 10
     else if (budget request == "enterprise")
               && contains (tier_platforms "enterprise") platform
     then base_score + 10
     else base_score).
Proof.
  unfold budget_alignment.
  eapply returns_bind.
  { apply returns_and_then, returns_tier_test. set_solver. }
  apply returns_if; [apply returns_ret |].
  eapply returns_bind.
  { apply returns_and_then, returns_tier_test. set_solver. }
  apply returns_if; [apply returns_ret |].
  eapply returns_bind.
  { apply returns_and_then, returns_tier_test. set_solver. }
  apply returns_if; apply returns_ret.
Qed.

Lemma use_case_alignment_returns platform request base_score :
  returns (use_case_alignment platform request base_score)
    (if use_case request == "marketing" then
       if contains ["Synthesia"; "Pictory"; "InVideo"; "Promo"] platform
       then base_score + 8 else base_score
     else if use_case request == "training" then
       if contains ["Colossyan"; "Hour One"; "Elai"; "DeepBrain"] platform
       then base_score + 8 else base_score
     else if use_case request == "social" then
       if contains ["Fliki"; "Steve.ai"; "VEED"; "Lumen5"] platform
       then base_score + 8 else base_score
     else base_score).
Proof.
  unfold use_case_alignment.
  repeat (apply returns_if; [apply returns_if; apply returns_ret |]).
  apply returns_ret.
Qed.

Lemma team_size_consideration_returns platform request base_score :
  returns (team_size_consideration platform request base_score)
    (if (team_size request == "large_team")
          && contains (tier_platforms "enterprise") platform
     then base_score + 5
     else if (team_size request == "just_me")
               && contains (tier_platforms "budget") platform
     then base_score + 5
     else base_score).
Proof.
  unfold team_size_consideration.
  eapply returns_bind.
  { apply returns_and_then, returns_tier_test. set_solver. }
  apply returns_if; [apply returns_ret |].
  eapply returns_bind.
  { apply returns_and_then, returns_tier_test. set_solver. }
  apply returns_if; apply returns_ret.
Qed.

Lemma volume_requirements_returns platform request base_score :
  returns (volume_requirements platform request base_score)
    (if (monthly_volume request == "50+")
          && contains (tier_platforms "enterprise") platform
     then base_score + 5
     else if (monthly_volume request == "1-10")
               && contains (tier_platforms "budget") platform
     then base_score + 5
     else base_score).
Proof.
  unfold volume_requirements.
  eapply returns_bind.
  { apply returns_and_then, returns_tier_test. set_solver. }
  apply returns_if; [apply returns_ret |].
  eapply returns_bind.
  { apply returns_and_then, returns_tier_test. set_solver. }
  apply returns_if; apply returns_ret.
Qed.

(** Every block either keeps the running score or adds its bonus. *)
Lemma budget_alignment_total platform request base_score :
  ∃ s, returns (budget_alignment platform request base_score) s
       ∧ (s = base_score ∨ s = base_score + 10).
Proof.
  eexists; split; [apply budget_alignment_returns |].
  repeat case_match; auto.
Qed.

Lemma use_case_alignment_total platform request base_score :
  ∃ s, returns (use_case_alignment platform request base_score) s
       ∧ (s = base_score ∨ s = base_score + 8).
Proof.
  eexists; split; [apply use_case_alignment_returns |].
  repeat case_match; auto.
Qed.

Lemma team_size_consideration_total platform request base_score :
  ∃ s, returns (team_size_consideration platform request base_score) s
       ∧ (s = base_score ∨ s = base_score + 5).
Proof.
  eexists; split; [apply team_size_consideration_returns |].
  repeat case_match; auto.
Qed.

Lemma volume_requirements_total platform request base_score :
  ∃ s, returns (volume_requirements platform request base_score) s
       ∧ (s = base_score ∨ s = base_score + 5).
Proof.
  eexists; split; [apply volume_requirements_returns |].
  repeat case_match; auto.
Qed.

(** The score before the variance is drawn is a function of the platform and
    the request alone, between 75 and 103. *)
Lemma base_score_of_total platform request :
  ∃ b, returns (base_score_of platform request) b ∧ 75 <= b <= 103.
Proof.
  unfold base_score_of.
  destruct (budget_alignment_total platform request 75) as (s1 & H1 & B1).
  destruct (use_case_alignment_total platform request s1) as (s2 & H2 & B2).
  destruct (team_size_consideration_total platform request s2) as (s3 & H3 & B3).
  destruct (volume_requirements_total platform request s3) as (s4 & H4 & B4).
  exists s4. split; [| lia].
  repeat (eapply returns_bind; [eassumption |]). assumption.
Qed.

(** ** The random draw *)

Lemma randint_range a b g :
  a <= b → ∃ n, randint a b g = (Ok n, advance g) ∧ a <= n <= b.
Proof.
  intros Hab. unfold randint. case_decide; [lia |].
  eexists; split; [reflexivity |].
  pose proof (Z.mod_pos_bound (tape g (pos g)) (b - a + 1)). lia.
Qed.

Lemma randint_onto a b n k :
  a <= n <= b → randint a b (mkRNG (λ _, n - a) k) = (Ok n, mkRNG (λ _, n - a) (S k)).
Proof.
  intros Hn. unfold randint, advance; simpl. case_decide; [lia |].
  rewrite Z.mod_small by lia. do 2 f_equal. lia.
Qed.

Lemma final_score_of_range base_score variance :
  60 <= final_score_of base_score variance <= 98.
Proof. unfold final_score_of. lia. Qed.

Lemma final_score_of_jitter base_score variance :
  -3 <= variance <= 3 →
  Z.abs (final_score_of base_score variance - final_score_of base_score 0) <= 3.
Proof. unfold final_score_of. lia. Qed.

(** One call of [calculate_platform_score] makes exactly one draw and returns
    the clamped sum of the pure base score and the variance drawn. *)
Lemma calculate_platform_score_run platform request g :
  ∃ b v, returns (base_score_of platform request) b
         ∧ 75 <= b <= 103 ∧ -3 <= v <= 3
         ∧ calculate_platform_score platform request g
           = (Ok (final_score_of b v), advance g).
Proof.
  destruct (base_score_of_total platform request) as (b & Hb & Bb).
  destruct (randint_range (-3) 3 g) as (v & Hv & Bv); [lia |].
  exists b, v. repeat split; try assumption; try lia.
  unfold calculate_platform_score, mbind, M_bind.
  rewrite Hb, Hv. reflexivity.
Qed.

(** ** Relative order of list elements *)

Section Before.
  Context {A : Type}.
  Implicit Types (l : list A) (a b x : A).

Lemma before_cons_inv x l a b :
  before (x :: l) a b → (a = x ∧ b ∈ l) ∨ before l a b.
Proof.
  intros (i & j & Hij & Hi & Hj).
  destruct j as [| j]; [lia |]. simpl in Hj.
  destruct i as [| i]; simpl in Hi.
  - left. split; [congruence |]. eapply list_elem_of_lookup_2, Hj.
  - right. exists i, j. split; [lia | auto].
Qed.

Lemma before_head x l b : b ∈ l → before (x :: l) x b.
Proof.
  intros [j Hj]%list_elem_of_lookup_1.
  exists 0%nat, (S j). split; [lia | auto].
Qed.

Lemma before_tail x l a b : before l a b → before (x :: l) a b.
Proof.
  intros (i & j & Hij & Hi & Hj).
  exists (S i), (S j). split; [lia | auto].
Qed.

Lemma before_take n l a b : before (take n l) a b → before l a b.
Proof.
  intros (i & j & Hij & Hi & Hj).
  apply lookup_take_Some in Hi as [Hi _].
  apply lookup_take_Some in Hj as [Hj _].
  exists i, j. auto.
Qed.

Lemma before_fmap_inv {B : Type} (f : A → B) l (a' b' : B) :
  before (f <$> l) a' b' → ∃ a b, a' = f a ∧ b' = f b ∧ before l a b.
Proof.
  intros (i & j & Hij & Hi & Hj).
  apply list_lookup_fmap_Some in Hi as (a & -> & Hi).
  apply list_lookup_fmap_Some in Hj as (b & -> & Hj).
  exists a, b. repeat split. exists i, j. auto.
Qed.

End Before.

(** ** The sort: a stable permutation in descending order of the key *)

Section SortFacts.
  Context {A : Type} (key : A → Z).
  Implicit Types (l : list A) (a b x : A).

Lemma insert_reverse_Permutation x l : insert_reverse key x l ≡ₚ x :: l.
Proof.
  induction l as [| y l IH]; simpl; [reflexivity |].
  case_decide; [reflexivity |].
  rewrite IH. apply Permutation_swap.
Qed.

Lemma sort_reverse_Permutation l : sort_reverse key l ≡ₚ l.
Proof.
  induction l as [| x l IH]; simpl; [reflexivity |].
  rewrite insert_reverse_Permutation, IH. reflexivity.
Qed.

Lemma length_sort_reverse l : length (sort_reverse key l) = length l.
Proof. apply Permutation_length, sort_reverse_Permutation. Qed.

Lemma insert_reverse_sorted x l :
  StronglySorted (λ a b, key b <= key a) l →
  StronglySorted (λ a b, key b <= key a) (insert_reverse key x l).
Proof.
  induction 1 as [| y l Hl IH Hy]; simpl.
  - repeat constructor.
  - case_decide as Hxy.
    + constructor; [constructor; assumption |].
      constructor; [assumption |].
      eapply Forall_impl; [exact Hy |]. simpl. intros; lia.
    + constructor; [assumption |].
      rewrite insert_reverse_Permutation.
      constructor; [lia | assumption].
Qed.

Lemma sort_reverse_sorted l :
  StronglySorted (λ a b, key b <= key a) (sort_reverse key l).
Proof.
  induction l as [| x l IH]; simpl; [constructor |].
  apply insert_reverse_sorted, IH.
Qed.

(** Stability: elements with equal keys keep their order. *)
Lemma insert_reverse_stable x l a b :
  before (insert_reverse key x l) a b → key a = key b → before (x :: l) a b.
Proof.
  induction l as [| y l IH]; simpl; [auto |].
  case_decide as Hxy; [auto |].
  intros [[-> Hb] | Hab]%before_cons_inv Hk.
  - rewrite insert_reverse_Permutation in Hb.
    apply elem_of_cons in Hb as [-> | Hb]; [lia |].
    apply before_tail, before_head, Hb.
  - destruct (before_cons_inv _ _ _ _ (IH Hab Hk)) as [[-> Hb] | Hab'].
    + apply before_head. right. exact Hb.
    + do 2 apply before_tail. exact Hab'.
Qed.

Lemma sort_reverse_stable l a b :
  before (sort_reverse key l) a b → key a = key b → before l a b.
Proof.
  revert a b. induction l as [| x l IH]; simpl; intros a b Hab Hk.
  - destruct Hab as (i & j & _ & Hi & _). discriminate.
  - destruct (before_cons_inv _ _ _ _ (insert_reverse_stable _ _ _ _ Hab Hk))
      as [[-> Hb] | Hab'].
    + apply before_head. rewrite sort_reverse_Permutation in Hb. exact Hb.
    + apply before_tail, IH; assumption.
Qed.

(** The same, on the sublists of equal key. *)
Lemma insert_reverse_filter k x l :
  filter (λ a, key a = k) (insert_reverse key x l)
  = filter (λ a, key a = k) (x :: l).
Proof.
  induction l as [| y l IH]; simpl; [reflexivity |].
  case_decide as Hxy; [reflexivity |].
  rewrite filter_cons, IH, !filter_cons.
  repeat case_decide; try reflexivity; lia.
Qed.

Lemma sort_reverse_filter k l :
  filter (λ a, key a = k) (sort_reverse key l) = filter (λ a, key a = k) l.
Proof.
  induction l as [| x l IH]; simpl; [reflexivity |].
  rewrite insert_reverse_filter, !filter_cons, IH. reflexivity.
Qed.

(** A list in descending order of the key is determined by its sublists of
    equal key. *)
Lemma sorted_filter_unique l1 l2 :
  StronglySorted (λ a b, key b <= key a) l1 →
  StronglySorted (λ a b, key b <= key a) l2 →
  (∀ k, filter (λ a, key a = k) l1 = filter (λ a, key a = k) l2) →
  l1 = l2.
Proof.
  intros H1. revert l2.
  induction H1 as [| x l1 H1 IH Hx]; intros l2 H2 Hf.
  - destruct l2 as [| y l2]; [reflexivity |].
    specialize (Hf (key y)). rewrite filter_cons in Hf.
    case_decide; [discriminate | congruence].
  - destruct H2 as [| y l2 H2 Hy].
    { specialize (Hf (key x)). rewrite filter_cons in Hf.
      case_decide; [discriminate | congruence]. }
    assert (Hk : key x = key y).
    { assert (Hxin : x ∈ y :: l2).
      { eapply (list_elem_of_filter (λ a, key a = key x)). rewrite <- Hf.
        apply list_elem_of_filter. split; [reflexivity | left]. }
      assert (Hyin : y ∈ x :: l1).
      { eapply (list_elem_of_filter (λ a, key a = key y)). rewrite Hf.
        apply list_elem_of_filter. split; [reflexivity | left]. }
      rewrite Forall_forall in Hx, Hy.
      apply elem_of_cons in Hxin as [-> | Hxin]; [reflexivity |].
      apply elem_of_cons in Hyin as [-> | Hyin]; [reflexivity |].
      specialize (Hx _ Hyin). specialize (Hy _ Hxin). simpl in *. lia. }
    assert (Hxy : x = y).
    { specialize (Hf (key x)). rewrite !filter_cons in Hf.
      repeat case_decide; congruence. }
    subst y. f_equal. apply IH; [exact H2 |].
    intros k. specialize (Hf k). rewrite !filter_cons in Hf.
    case_decide; congruence.
Qed.

(** Hence every stable sort in descending order of the key computes
    [sort_reverse]. *)
Lemma sort_reverse_unique l l' :
  StronglySorted (λ a b, key b <= key a) l' →
  (∀ k, filter (λ a, key a = k) l' = filter (λ a, key a = k) l) →
  l' = sort_reverse key l.
Proof.
  intros Hsorted Hstable.
  apply sorted_filter_unique; [exact Hsorted | apply sort_reverse_sorted |].
  intros k. rewrite sort_reverse_filter. apply Hstable.
Qed.

End SortFacts.

(** ** Reasoning text *)

Lemma tier_reason_returns platform :
  returns (tier_reason platform []) (tier_fragment platform).
Proof.
  unfold tier_reason, tier_fragment.
  eapply returns_bind; [apply returns_PLATFORMS, PLATFORMS_keys; set_solver |].
  apply returns_if; [apply returns_ret |].
  eapply returns_bind; [apply returns_PLATFORMS, PLATFORMS_keys; set_solver |].
  apply returns_if; [apply returns_ret |].
  eapply returns_bind; [apply returns_PLATFORMS, PLATFORMS_keys; set_solver |].
  apply returns_if; apply returns_ret.
Qed.

Lemma use_case_reason_app request reasons :
  use_case_reason request reasons = (reasons ++ use_case_fragment request)%list.
Proof.
  unfold use_case_reason, use_case_fragment, append.
  repeat case_match; try reflexivity. symmetry; apply app_nil_r.
Qed.

Lemma volume_reason_app request reasons :
  volume_reason request reasons = (reasons ++ volume_fragment request)%list.
Proof.
  unfold volume_reason, volume_fragment, append.
  case_match; [reflexivity |]. symmetry; apply app_nil_r.
Qed.

Lemma generate_reasoning_returns platform request :
  returns (generate_reasoning platform request)
    (join ". " (tier_fragment platform ++ use_case_fragment request
                  ++ volume_fragment request)%list).
Proof.
  unfold generate_reasoning.
  eapply returns_bind; [apply tier_reason_returns |].
  rewrite volume_reason_app, use_case_reason_app, <- app_assoc.
  apply returns_ret.
Qed.

(** ** The candidate pool *)

Lemma platform_pool_of_returns request :
  returns (platform_pool_of request) (candidate_pool (budget request)).
Proof.
  unfold platform_pool_of, candidate_pool.
  repeat apply returns_if;
    (eapply returns_bind; [apply returns_PLATFORMS, PLATFORMS_keys; set_solver |]);
    (eapply returns_bind; [apply returns_PLATFORMS, PLATFORMS_keys; set_solver |]);
    apply returns_ret.
Qed.

Lemma candidate_pool_length b :
  length (candidate_pool b)
  = if b == "budget_friendly" then 7%nat
    else if b == "professional" then 7%nat else 10%nat.
Proof. unfold candidate_pool. repeat case_match; reflexivity. Qed.

Lemma candidate_pool_NoDup b : NoDup (candidate_pool b).
Proof.
  unfold candidate_pool.
  repeat case_match; apply (bool_decide_unpack _); vm_compute; exact I.
Qed.

(** The specialized platforms belong to no other tier. *)
Lemma specialized_only platform :
  platform ∈ tier_platforms "specialized" →
  (platform ∉ tier_platforms "enterprise")
  ∧ (platform ∉ tier_platforms "mid_tier")
  ∧ (platform ∉ tier_platforms "budget").
Proof.
  destruct tier_platforms_values as (-> & -> & -> & ->).
  intros Hp.
  repeat (apply elem_of_cons in Hp as [-> | Hp];
          [repeat split; apply (bool_decide_unpack _); vm_compute; exact I |]).
  inversion Hp.
Qed.

(** ** The scoring loop *)

Lemma draws_advance n g : draws n (advance g) = draws (S n) g.
Proof. unfold draws, advance; simpl. f_equal. lia. Qed.

Lemma draws_0 g : draws 0 g = g.
Proof. destruct g; reflexivity. Qed.

Lemma score_platforms_run platform_pool request scored_platforms g :
  ∃ scored,
    score_platforms platform_pool request scored_platforms g
    = (Ok (scored_platforms ++ scored)%list, draws (length platform_pool) g)
    ∧ Forall2 (scored_for request) platform_pool scored.
Proof.
  revert scored_platforms g.
  induction platform_pool as [| platform rest IH]; intros acc g.
  - exists []. rewrite app_nil_r, draws_0. split; [reflexivity | constructor].
  - destruct (calculate_platform_score_run platform request g)
      as (b & v & Hb & _ & Hv & Hrun).
    pose proof (generate_reasoning_returns platform request) as Hreason.
    set (sp := mkScoredPlatform platform (final_score_of b v)
                 (join ". " (tier_fragment platform ++ use_case_fragment request
                               ++ volume_fragment request)%list) None).
    destruct (IH (acc ++ [sp])%list (advance g)) as (scored & Hrest & Hall).
    exists (sp :: scored). split.
    + simpl. unfold mbind, M_bind. rewrite Hrun, Hreason. fold sp.
      unfold mbind, M_bind in Hrest. rewrite Hrest, draws_advance.
      rewrite <- app_assoc. reflexivity.
    + constructor; [| exact Hall].
      repeat split; [exact Hreason |]. exists b, v. auto.
Qed.

(** ** The endpoint *)

(** The endpoint never answers with an error: it returns the first three of
    the sorted scored list, labelled, after one draw per candidate. *)
Lemma calculate_matches_run request g :
  ∃ scored,
    Forall2 (scored_for request) (candidate_pool (budget request)) scored
    ∧ calculate_matches request g
      = (Ok (mkMatchResponse
               (add_consensus <$> take 3 (sort_reverse match_score scored))
               95
               (Z.of_nat (length (candidate_pool (budget request))))
               "3AI-MCP"),
         draws (length (candidate_pool (budget request))) g).
Proof.
  destruct (score_platforms_run (candidate_pool (budget request)) request [] g)
    as (scored & Hrun & Hall).
  exists scored. split; [exact Hall |].
  unfold calculate_matches, calculate_matches_body, mbind, M_bind.
  rewrite platform_pool_of_returns, Hrun. reflexivity.
Qed.

(** * The claims *)

(** ** C1: the tier-match bonus *)

(** C1, as stated, fails: with the empty string as budget, the enterprise
    platform Synthesia is in the candidate pool (the pool falls into the
    enterprise branch), yet the budget alignment leaves the score at 75
    instead of raising it to 85, and the whole base score is 75. *)
Lemma tier_bonus_unrecognized_budget_counterexample :
  budget request_unrecognized_budget ≠ "budget_friendly"
  ∧ budget request_unrecognized_budget ≠ "professional"
  ∧ "Synthesia" ∈ tier_platforms "enterprise"
  ∧ returns (platform_pool_of request_unrecognized_budget)
      (candidate_pool (budget request_unrecognized_budget))
  ∧ "Synthesia" ∈ candidate_pool (budget request_unrecognized_budget)
  ∧ returns (budget_alignment "Synthesia" request_unrecognized_budget 75) 75
  ∧ ¬ returns (budget_alignment "Synthesia" request_unrecognized_budget 75)
        (75 + 10)
  ∧ returns (base_score_of "Synthesia" request_unrecognized_budget) 75.
Proof.
  assert (Hsame : returns
            (budget_alignment "Synthesia" request_unrecognized_budget 75) 75).
  { intros g. vm_compute. reflexivity. }
  split; [discriminate |]. split; [discriminate |].
  split; [apply (bool_decide_unpack _); vm_compute; exact I |].
  split; [apply platform_pool_of_returns |].
  split; [apply (bool_decide_unpack _); vm_compute; exact I |].
  split; [exact Hsame |].
  split.
  - intros Hbonus.
    pose proof (returns_inj _ _ _ Hsame Hbonus) as Heq. discriminate Heq.
  - intros g. vm_compute. reflexivity.
Qed.

(** C1 (amended): the tier-match bonus of an enterprise platform is tied to
    the budget value [enterprise] itself. When the budget is exactly
    [enterprise], every enterprise-tier platform gets +10; when the budget is
    none of [budget_friendly], [professional] and [enterprise], the budget
    alignment gives no platform any bonus. *)
Theorem tier_bonus_exact_budget platform request base_score :
  (budget request = "enterprise" →
   platform ∈ tier_platforms "enterprise" →
   returns (budget_alignment platform request base_score) (base_score + 10))
  ∧ (budget request ∉ ["budget_friendly"; "professional"; "enterprise"] →
     returns (budget_alignment platform request base_score) base_score).
Proof.
  split.
  - intros Hb Hp.
    pose proof (budget_alignment_returns platform request base_score) as H.
    rewrite Hb in H. rewrite (contains_true _ _ Hp) in H.
    repeat case_match; first [exact H | discriminate].
  - intros Hb.
    apply not_elem_of_cons in Hb as [Hb1 Hb].
    apply not_elem_of_cons in Hb as [Hb2 Hb].
    apply not_elem_of_cons in Hb as [Hb3 _].
    pose proof (budget_alignment_returns platform request base_score) as H.
    rewrite (str_eq_false _ _ Hb1), (str_eq_false _ _ Hb2),
      (str_eq_false _ _ Hb3) in H.
    exact H.
Qed.

Lemma tier_bonus_exact_budget_witness :
  returns (budget_alignment "Synthesia" request_enterprise_training 75) 85
  ∧ returns (budget_alignment "Synthesia" request_unrecognized_budget 75) 75.
Proof.
  split.
  - apply (proj1 (tier_bonus_exact_budget
                    "Synthesia" request_enterprise_training 75)).
    + reflexivity.
    + apply (bool_decide_unpack _); vm_compute; exact I.
  - apply (proj2 (tier_bonus_exact_budget
                    "Synthesia" request_unrecognized_budget 75)).
    apply (bool_decide_unpack _); vm_compute; exact I.
Defined.

(** ** C2: the candidate pool *)

(** C2: the pool is the budget tier and the first two mid-tier platforms for
    [budget_friendly], the mid tier and the first two enterprise platforms for
    [professional], and the enterprise and specialized tiers for every other
    budget value; each tier has five platforms; and no budget value makes the
    endpoint answer with an error. *)
Theorem candidate_pool_by_budget request :
  (budget request = "budget_friendly" →
   returns (platform_pool_of request)
     (tier_platforms "budget" ++ take 2 (tier_platforms "mid_tier"))%list)
  ∧ (budget request = "professional" →
     returns (platform_pool_of request)
       (tier_platforms "mid_tier" ++ take 2 (tier_platforms "enterprise"))%list)
  ∧ (budget request ≠ "budget_friendly" →
     budget request ≠ "professional" →
     returns (platform_pool_of request)
       (tier_platforms "enterprise" ++ tier_platforms "specialized")%list)
  ∧ Forall (λ k, length (tier_platforms k) = 5%nat)
      ["enterprise"; "mid_tier"; "budget"; "specialized"]
  ∧ ∀ g, ∃ response g', calculate_matches request g = (Ok response, g').
Proof.
  pose proof (platform_pool_of_returns request) as H.
  unfold candidate_pool in H.
  repeat split.
  - intros Hb. rewrite Hb in H. exact H.
  - intros Hb. rewrite Hb in H. exact H.
  - intros H1 H2. rewrite !str_eq_false in H by assumption. exact H.
  - repeat constructor.
  - intros g. destruct (calculate_matches_run request g) as (scored & _ & Hrun).
    eauto.
Qed.

Lemma candidate_pool_by_budget_witness :
  returns (platform_pool_of request_unrecognized_budget)
    ["Synthesia"; "HeyGen"; "Colossyan"; "Hour One"; "D-ID";
     "Movio"; "DeepBrain"; "Avaturn"; "Oxolo"; "Pipio"]
  ∧ returns (platform_pool_of (mkMatchRequest [] "budget_friendly" ∅ "" "" ""))
      ["Fliki"; "Vidnoz"; "Steve.ai"; "VEED"; "Lumen5"; "Pictory"; "InVideo"]
  ∧ returns (platform_pool_of (mkMatchRequest [] "professional" ∅ "" "" ""))
      ["Pictory"; "InVideo"; "Elai"; "Rephrase"; "Yepic"; "Synthesia"; "HeyGen"].
Proof.
  split; [| split].
  - apply (candidate_pool_by_budget request_unrecognized_budget);
      discriminate.
  - apply (candidate_pool_by_budget
             (mkMatchRequest [] "budget_friendly" ∅ "" "" "")).
    reflexivity.
  - apply (candidate_pool_by_budget
             (mkMatchRequest [] "professional" ∅ "" "" "")).
    reflexivity.
Defined.

(** ** C3: the enterprise training scenario *)

(** C3: for budget [enterprise], use case [training], team size [large_team]
    and volume [50+] (whatever the features and priorities), the pool is the
    five enterprise and the five specialized platforms, ten in all; Colossyan
    and Hour One collect 75 + 10 + 8 + 5 + 5 = 103 before the variance is
    drawn; 103 and any variance from -3 to 3 are clamped to 98; and so the
    score returned for them is 98 whatever the random source draws. *)
Theorem enterprise_training_scenario features priorities platform :
  let request :=
    mkMatchRequest features "enterprise" priorities "training" "large_team" "50+" in
  platform ∈ ["Colossyan"; "Hour One"] →
  returns (platform_pool_of request)
    (tier_platforms "enterprise" ++ tier_platforms "specialized")%list
  ∧ length (tier_platforms "enterprise") = 5%nat
  ∧ length (tier_platforms "specialized") = 5%nat
  ∧ length (tier_platforms "enterprise" ++ tier_platforms "specialized")%list
    = 10%nat
  ∧ platform ∈ tier_platforms "enterprise"
  ∧ returns (budget_alignment platform request 75) (75 + 10)
  ∧ returns (use_case_alignment platform request (75 + 10)) (75 + 10 + 8)
  ∧ returns (team_size_consideration platform request (75 + 10 + 8))
      (75 + 10 + 8 + 5)
  ∧ returns (volume_requirements platform request (75 + 10 + 8 + 5))
      (75 + 10 + 8 + 5 + 5)
  ∧ returns (base_score_of platform request) 103
  ∧ (∀ variance, -3 <= variance <= 3 → final_score_of 103 variance = 98)
  ∧ ∀ g, calculate_platform_score platform request g = (Ok 98, advance g).
Proof.
  intros request Hp.
  assert (Hbase : returns (base_score_of platform request) 103).
  { apply elem_of_cons in Hp as [-> | Hp];
      [| apply list_elem_of_singleton in Hp as ->];
      intros g; vm_compute; reflexivity. }
  assert (Hclamp : ∀ variance,
             -3 <= variance <= 3 → final_score_of 103 variance = 98).
  { intros variance Hv. unfold final_score_of. lia. }
  split; [apply (platform_pool_of_returns request) |].
  do 3 (split; [reflexivity |]).
  split.
  { apply elem_of_cons in Hp as [-> | Hp];
      [| apply list_elem_of_singleton in Hp as ->];
      apply (bool_decide_unpack _); vm_compute; exact I. }
  do 4 (split;
    [apply elem_of_cons in Hp as [-> | Hp];
       [| apply list_elem_of_singleton in Hp as ->];
       intros g; vm_compute; reflexivity |]).
  split; [exact Hbase |]. split; [exact Hclamp |].
  intros g.
  destruct (randint_range (-3) 3 g) as (v & Hv & Bv); [lia |].
  unfold calculate_platform_score, mbind, M_bind.
  rewrite Hbase, Hv. unfold mret, M_ret. rewrite Hclamp by exact Bv.
  reflexivity.
Qed.

Lemma enterprise_training_scenario_witness :
  returns (base_score_of "Colossyan" request_enterprise_training) 103
  ∧ fst (calculate_platform_score "Hour One" request_enterprise_training rng_ramp)
    = Ok 98.
Proof.
  assert (Hin1 : "Colossyan" ∈ ["Colossyan"; "Hour One"]) by (left).
  assert (Hin2 : "Hour One" ∈ ["Colossyan"; "Hour One"]) by (right; left).
  pose proof (enterprise_training_scenario
                ["avatars"; "api"] {[ "quality" := 0.5%float ]}
                "Colossyan" Hin1) as H1.
  pose proof (enterprise_training_scenario
                ["avatars"; "api"] {[ "quality" := 0.5%float ]}
                "Hour One" Hin2) as H2.
  split.
  - apply H1.
  - destruct H2 as (_ & _ & _ & _ & _ & _ & _ & _ & _ & _ & _ & Hrun).
    unfold request_enterprise_training. rewrite (Hrun rng_ramp). reflexivity.
Defined.

(** ** C4: scores stay within the jitter range of a fixed baseline *)

(** C4: for every platform and request, the candidate pool, the outcome of
    each of the four bonus blocks and the base score do not depend on the
    random source; a call draws one variance between -3 and 3, and the score
    it returns is at most 3 away from the baseline, the score the same
    formula gives with variance 0. *)
Theorem score_within_jitter_of_baseline platform request :
  ∃ pool b,
    returns (platform_pool_of request) pool
    ∧ (∀ s, ∃ s', returns (budget_alignment platform request s) s')
    ∧ (∀ s, ∃ s', returns (use_case_alignment platform request s) s')
    ∧ (∀ s, ∃ s', returns (team_size_consideration platform request s) s')
    ∧ (∀ s, ∃ s', returns (volume_requirements platform request s) s')
    ∧ returns (base_score_of platform request) b
    ∧ ∀ g, ∃ variance score,
        -3 <= variance <= 3
        ∧ calculate_platform_score platform request g = (Ok score, advance g)
        ∧ score = final_score_of b variance
        ∧ Z.abs (score - final_score_of b 0) <= 3.
Proof.
  destruct (base_score_of_total platform request) as (b & Hb & _).
  exists (candidate_pool (budget request)), b.
  split; [apply platform_pool_of_returns |].
  split; [intros s; eexists; apply budget_alignment_returns |].
  split; [intros s; eexists; apply use_case_alignment_returns |].
  split; [intros s; eexists; apply team_size_consideration_returns |].
  split; [intros s; eexists; apply volume_requirements_returns |].
  split; [exact Hb |].
  intros g.
  destruct (calculate_platform_score_run platform request g)
    as (b' & v & Hb' & _ & Hv & Hrun).
  rewrite <- (returns_inj _ _ _ Hb Hb') in Hrun.
  exists v, (final_score_of b v).
  split; [exact Hv |]. split; [exact Hrun |]. split; [reflexivity |].
  apply final_score_of_jitter, Hv.
Qed.

(** ** Facts about the scored list and the response *)

Lemma before_Forall2 {A B : Type} (P : A → B → Prop) l1 l2 a b :
  Forall2 P l1 l2 → before l2 a b → ∃ a' b', before l1 a' b' ∧ P a' a ∧ P b' b.
Proof.
  intros Hall (i & j & Hij & Hi & Hj).
  destruct (Forall2_lookup_r _ _ _ _ _ Hall Hi) as (a' & Hi' & Ha).
  destruct (Forall2_lookup_r _ _ _ _ _ Hall Hj) as (b' & Hj' & Hb).
  exists a', b'. split; [exists i, j |]; auto.
Qed.

Lemma scored_for_range request platform_pool scored :
  Forall2 (scored_for request) platform_pool scored →
  Forall (λ sp, 60 <= match_score sp <= 98) scored.
Proof.
  induction 1 as [| p sp pool scored Hsp _ IH]; constructor; [| exact IH].
  destruct Hsp as (_ & _ & _ & b & v & _ & _ & ->).
  apply final_score_of_range.
Qed.

Lemma StronglySorted_take {A : Type} (R : relation A) n (l : list A) :
  StronglySorted R l → StronglySorted R (take n l).
Proof.
  intros Hl. rewrite <- (take_drop n l) in Hl.
  eapply StronglySorted_app_1_l, Hl.
Qed.

Lemma top_3_sorted scored :
  StronglySorted score_ge
    (add_consensus <$> take 3 (sort_reverse match_score scored)).
Proof.
  apply StronglySorted_fmap with (R1 := λ a b, match_score b <= match_score a).
  - intros x y Hxy. exact Hxy.
  - apply StronglySorted_take, sort_reverse_sorted.
Qed.

Lemma top_3_stable scored a b :
  before (add_consensus <$> take 3 (sort_reverse match_score scored)) a b →
  match_score a = match_score b →
  ∃ a0 b0, before scored a0 b0 ∧ name a0 = name a ∧ name b0 = name b.
Proof.
  intros (a0 & b0 & -> & -> & Hab)%before_fmap_inv Hk. simpl in Hk.
  exists a0, b0. repeat split.
  eapply sort_reverse_stable; [| exact Hk].
  eapply before_take, Hab.
Qed.

Lemma top_3_range request platform_pool scored :
  Forall2 (scored_for request) platform_pool scored →
  Forall (λ sp, 60 <= match_score sp <= 98)
    (add_consensus <$> take 3 (sort_reverse match_score scored)).
Proof.
  intros Hall%scored_for_range.
  apply Forall_fmap, Forall_take.
  rewrite sort_reverse_Permutation. exact Hall.
Qed.

Lemma top_3_length request platform_pool scored :
  Forall2 (scored_for request) platform_pool scored →
  length (add_consensus <$> take 3 (sort_reverse match_score scored))
  = (3 `min` length platform_pool)%nat.
Proof.
  intros Hall%Forall2_length.
  rewrite length_fmap, length_take, length_sort_reverse, Hall. reflexivity.
Qed.

(** ** C5: the response is sorted, and the sort is stable *)

(** C5: the endpoint returns a response whose [platforms] are in
    non-increasing order of [match_score], and of two returned entries with
    equal scores the one listed first is the one whose platform comes first in
    the candidate pool. *)
Theorem platforms_sorted_descending_stable request g :
  ∃ response g' pool,
    calculate_matches request g = (Ok response, g')
    ∧ returns (platform_pool_of request) pool
    ∧ StronglySorted score_ge (platforms response)
    ∧ ∀ a b, before (platforms response) a b →
             match_score a = match_score b →
             before pool (name a) (name b).
Proof.
  destruct (calculate_matches_run request g) as (scored & Hall & Hrun).
  eexists _, _, _. split; [exact Hrun |].
  split; [apply platform_pool_of_returns |]. simpl.
  split; [apply top_3_sorted |].
  intros a b Hab Hk.
  destruct (top_3_stable _ _ _ Hab Hk) as (a0 & b0 & Hab0 & <- & <-).
  destruct (before_Forall2 _ _ _ _ _ Hall Hab0)
    as (pa & pb & Hp & (<- & _) & (<- & _)).
  exact Hp.
Qed.

Lemma platforms_sorted_descending_stable_witness :
  ∃ response,
    fst (calculate_matches request_enterprise_training rng_ramp) = Ok response
    ∧ name <$> platforms response = ["Colossyan"; "Hour One"; "D-ID"]
    ∧ match_score <$> platforms response = [98; 98; 96]
    ∧ before (candidate_pool "enterprise") "Colossyan" "Hour One".
Proof.
  destruct (platforms_sorted_descending_stable
              request_enterprise_training rng_ramp)
    as (response & g' & pool & Hrun & Hpool & _ & Hstable).
  pose proof (returns_inj _ _ _ Hpool
                (platform_pool_of_returns request_enterprise_training)) as ->.
  exists response.
  vm_compute in Hrun. injection Hrun as <- <-.
  split; [vm_compute; reflexivity |].
  split; [reflexivity |]. split; [reflexivity |].
  apply (Hstable
           (mkScoredPlatform "Colossyan" 98
              "Enterprise-grade features with full team collaboration. Excellent for educational and training content. Handles high-volume production efficiently"
              (Some "3/3 AIs recommend"))
           (mkScoredPlatform "Hour One" 98
              "Enterprise-grade features with full team collaboration. Excellent for educational and training content. Handles high-volume production efficiently"
              (Some "3/3 AIs recommend"))).
  - exists 0%nat, 1%nat. split; [lia |]. split; reflexivity.
  - reflexivity.
Defined.

(** With a budget that is not recognised and a variance of 0 at every draw,
    all ten candidates score 75 and the first three of the pool are returned,
    in the order of the pool. *)
Example all_tied_first_three_of_pool :
  fst (calculate_matches request_unrecognized_budget rng_flat)
  = Ok (mkMatchResponse
          [mkScoredPlatform "Synthesia" 75
             "Enterprise-grade features with full team collaboration"
             (Some "2/3 AIs recommend");
           mkScoredPlatform "HeyGen" 75
             "Enterprise-grade features with full team collaboration"
             (Some "2/3 AIs recommend");
           mkScoredPlatform "Colossyan" 75
             "Enterprise-grade features with full team collaboration"
             (Some "2/3 AIs recommend")]
          95 10 "3AI-MCP").
Proof. vm_compute. reflexivity. Qed.

(** ** C6: at most three entries, every score between 60 and 98 *)

(** C6: the endpoint returns a response with between 0 and 3 entries in
    [platforms], and every entry's [match_score] is an integer from 60 to
    98. *)
Theorem platforms_count_and_score_range request g :
  ∃ response g',
    calculate_matches request g = (Ok response, g')
    ∧ (0 <= length (platforms response) <= 3)%nat
    ∧ Forall (λ sp, 60 <= match_score sp <= 98) (platforms response).
Proof.
  destruct (calculate_matches_run request g) as (scored & Hall & Hrun).
  eexists _, _. split; [exact Hrun |]. simpl. split.
  - rewrite (top_3_length _ _ _ Hall). lia.
  - eapply top_3_range, Hall.
Qed.

(** ** C7: the number of platforms evaluated *)

(** C7: [total_evaluated] is the length of the whole candidate pool selected
    by the budget, not of the three entries returned: 7 for [budget_friendly],
    7 for [professional] and 10 for any other budget. *)
Theorem total_evaluated_is_pool_size request g :
  ∃ response g' pool,
    calculate_matches request g = (Ok response, g')
    ∧ returns (platform_pool_of request) pool
    ∧ total_evaluated response = Z.of_nat (length pool)
    ∧ total_evaluated response
      = if budget request == "budget_friendly" then 7
        else if budget request == "professional" then 7
        else 10.
Proof.
  destruct (calculate_matches_run request g) as (scored & Hall & Hrun).
  eexists _, _, _. split; [exact Hrun |].
  split; [apply platform_pool_of_returns |]. simpl.
  split; [reflexivity |].
  rewrite candidate_pool_length. repeat case_match; reflexivity.
Qed.

Lemma tier_fragment_of_tier platform :
  (platform ∈ tier_platforms "enterprise" →
   tier_fragment platform
   = ["Enterprise-grade features with full team collaboration"])
  ∧ (platform ∈ tier_platforms "mid_tier" →
     tier_fragment platform
     = ["Balanced features and pricing for growing teams"])
  ∧ (platform ∈ tier_platforms "budget" →
     tier_fragment platform
     = ["Cost-effective solution for individual creators"])
  ∧ (platform ∈ tier_platforms "specialized" → tier_fragment platform = []).
Proof.
  destruct tier_platforms_values as (He & Hm & Hb & Hs).
  rewrite He, Hm, Hb, Hs.
  repeat split; intros Hp;
    repeat (apply elem_of_cons in Hp as [-> | Hp]; [vm_compute; reflexivity |]);
    inversion Hp.
Qed.

(** ** C8: the reasoning text *)

(** C8: the reasoning is the tier fragment, the use-case fragment and the
    high-volume fragment, in that order, joined with ". ". Each fragment is
    absent or one sentence of the source, and the text is spelled out for
    every combination of present fragments: the present sentences in that
    order with ". " between two of them, and the empty string when there is
    none. A specialized platform has no tier fragment; and for a specialized
    platform, a use case other than marketing, training and social, and a
    volume other than 50+, the reasoning is the empty string. *)
Theorem reasoning_fragments_in_order platform request :
  returns (generate_reasoning platform request)
    (join ". " (tier_fragment platform ++ use_case_fragment request
                  ++ volume_fragment request)%list)
  ∧ (∀ t u v,
       (tier_fragment platform = [t] → use_case_fragment request = [u] →
        volume_fragment request = [v] →
        returns (generate_reasoning platform request)
          (t ++ ". " ++ u ++ ". " ++ v))
       ∧ (tier_fragment platform = [t] → use_case_fragment request = [u] →
          volume_fragment request = [] →
          returns (generate_reasoning platform request) (t ++ ". " ++ u))
       ∧ (tier_fragment platform = [t] → use_case_fragment request = [] →
          volume_fragment request = [v] →
          returns (generate_reasoning platform request) (t ++ ". " ++ v))
       ∧ (tier_fragment platform = [] → use_case_fragment request = [u] →
          volume_fragment request = [v] →
          returns (generate_reasoning platform request) (u ++ ". " ++ v))
       ∧ (tier_fragment platform = [t] → use_case_fragment request = [] →
          volume_fragment request = [] →
          returns (generate_reasoning platform request) t)
       ∧ (tier_fragment platform = [] → use_case_fragment request = [u] →
          volume_fragment request = [] →
          returns (generate_reasoning platform request) u)
       ∧ (tier_fragment platform = [] → use_case_fragment request = [] →
          volume_fragment request = [v] →
          returns (generate_reasoning platform request) v)
       ∧ (tier_fragment platform = [] → use_case_fragment request = [] →
          volume_fragment request = [] →
          returns (generate_reasoning platform request) ""))
  ∧ (platform ∈ tier_platforms "enterprise" →
     tier_fragment platform
     = ["Enterprise-grade features with full team collaboration"])
  ∧ (platform ∈ tier_platforms "mid_tier" →
     tier_fragment platform
     = ["Balanced features and pricing for growing teams"])
  ∧ (platform ∈ tier_platforms "budget" →
     tier_fragment platform
     = ["Cost-effective solution for individual creators"])
  ∧ (use_case request = "marketing" →
     use_case_fragment request = ["Strong marketing video capabilities"])
  ∧ (use_case request = "training" →
     use_case_fragment request
     = ["Excellent for educational and training content"])
  ∧ (use_case request = "social" →
     use_case_fragment request
     = ["Optimized for social media content creation"])
  ∧ (use_case request ∉ ["marketing"; "training"; "social"] →
     use_case_fragment request = [])
  ∧ (monthly_volume request = "50+" →
     volume_fragment request = ["Handles high-volume production efficiently"])
  ∧ (monthly_volume request ≠ "50+" → volume_fragment request = [])
  ∧ (platform ∈ tier_platforms "specialized" → tier_fragment platform = [])
  ∧ (platform ∈ tier_platforms "specialized" →
     use_case request ∉ ["marketing"; "training"; "social"] →
     monthly_volume request ≠ "50+" →
     returns (generate_reasoning platform request) "").
Proof.
  pose proof (generate_reasoning_returns platform request) as H.
  destruct (tier_fragment_of_tier platform) as (Te & Tm & Tb & Ts).
  assert (Hunknown : use_case request ∉ ["marketing"; "training"; "social"] →
                     use_case_fragment request = []).
  { intros Hu.
    apply not_elem_of_cons in Hu as [Hu1 Hu].
    apply not_elem_of_cons in Hu as [Hu2 Hu].
    apply not_elem_of_cons in Hu as [Hu3 _].
    unfold use_case_fragment.
    rewrite (str_eq_false _ _ Hu1), (str_eq_false _ _ Hu2),
      (str_eq_false _ _ Hu3). reflexivity. }
  assert (Hlow : monthly_volume request ≠ "50+" → volume_fragment request = []).
  { intros Hv. unfold volume_fragment.
    rewrite (str_eq_false _ _ Hv). reflexivity. }
  split; [exact H |].
  split.
  { intros t u v.
    repeat split; intros HT HU HV; rewrite HT, HU, HV in H; exact H. }
  do 3 (split; [assumption |]).
  split; [intros Hu; unfold use_case_fragment; rewrite Hu; reflexivity |].
  split; [intros Hu; unfold use_case_fragment; rewrite Hu; reflexivity |].
  split; [intros Hu; unfold use_case_fragment; rewrite Hu; reflexivity |].
  split; [exact Hunknown |].
  split; [intros Hv; unfold volume_fragment; rewrite Hv; reflexivity |].
  split; [exact Hlow |].
  split; [exact Ts |].
  intros Hp Hu Hv.
  rewrite (Ts Hp), (Hunknown Hu), (Hlow Hv) in H. exact H.
Qed.

Lemma reasoning_fragments_in_order_witness :
  returns (generate_reasoning "Synthesia"
             (mkMatchRequest [] "enterprise" ∅ "marketing" "large_team" "50+"))
    "Enterprise-grade features with full team collaboration. Strong marketing video capabilities. Handles high-volume production efficiently"
  ∧ returns (generate_reasoning "DeepBrain" request_enterprise_training)
      "Excellent for educational and training content. Handles high-volume production efficiently"
  ∧ returns (generate_reasoning "Pictory"
               (mkMatchRequest [] "professional" ∅ "" "just_me" "1-10"))
      "Balanced features and pricing for growing teams"
  ∧ tier_fragment "Movio" = []
  ∧ returns (generate_reasoning "Movio" request_unrecognized_budget) "".
Proof.
  assert (Hp : "Movio" ∈ tier_platforms "specialized").
  { apply (bool_decide_unpack _); vm_compute; exact I. }
  split; [| split; [| split]].
  - destruct (reasoning_fragments_in_order "Synthesia"
                (mkMatchRequest [] "enterprise" ∅ "marketing" "large_team" "50+"))
      as (_ & Hcases & _).
    apply (proj1 (Hcases
                    "Enterprise-grade features with full team collaboration"
                    "Strong marketing video capabilities"
                    "Handles high-volume production efficiently"));
      vm_compute; reflexivity.
  - destruct (reasoning_fragments_in_order "DeepBrain"
                request_enterprise_training) as (_ & Hcases & _).
    destruct (Hcases ""
                "Excellent for educational and training content"
                "Handles high-volume production efficiently")
      as (_ & _ & _ & Hcase & _).
    apply Hcase; vm_compute; reflexivity.
  - destruct (reasoning_fragments_in_order "Pictory"
                (mkMatchRequest [] "professional" ∅ "" "just_me" "1-10"))
      as (_ & Hcases & _).
    destruct (Hcases "Balanced features and pricing for growing teams" "" "")
      as (_ & _ & _ & _ & Hcase & _).
    apply Hcase; vm_compute; reflexivity.
  - destruct (reasoning_fragments_in_order "Movio" request_unrecognized_budget)
      as (_ & _ & _ & _ & _ & _ & _ & _ & _ & _ & _ & Htier & Hempty).
    split.
    + apply Htier, Hp.
    + apply Hempty.
      * exact Hp.
      * apply (bool_decide_unpack _); vm_compute; exact I.
      * discriminate.
Defined.

Example reasoning_all_fragments :
  returns (generate_reasoning "Synthesia"
             (mkMatchRequest [] "enterprise" ∅ "marketing" "large_team" "50+"))
    "Enterprise-grade features with full team collaboration. Strong marketing video capabilities. Handles high-volume production efficiently".
Proof. intros g. vm_compute. reflexivity. Qed.

Example reasoning_specialized_with_use_case :
  returns (generate_reasoning "DeepBrain" request_enterprise_training)
    "Excellent for educational and training content. Handles high-volume production efficiently".
Proof. intros g. vm_compute. reflexivity. Qed.

(** ** C9: priorities and features are never consulted *)

Section Unused.
  Context (r1 r2 : MatchRequest).
  Hypothesis Hbudget : budget r1 = budget r2.
  Hypothesis Huse_case : use_case r1 = use_case r2.
  Hypothesis Hteam_size : team_size r1 = team_size r2.
  Hypothesis Hmonthly_volume : monthly_volume r1 = monthly_volume r2.

Lemma platform_pool_of_unused : platform_pool_of r1 = platform_pool_of r2.
Proof. unfold platform_pool_of. rewrite Hbudget. reflexivity. Qed.

Lemma calculate_platform_score_unused platform :
  calculate_platform_score platform r1 = calculate_platform_score platform r2.
Proof.
  unfold calculate_platform_score, base_score_of, budget_alignment,
    use_case_alignment, team_size_consideration, volume_requirements.
  rewrite Hbudget, Huse_case, Hteam_size, Hmonthly_volume. reflexivity.
Qed.

Lemma generate_reasoning_unused platform :
  generate_reasoning platform r1 = generate_reasoning platform r2.
Proof.
  unfold generate_reasoning, use_case_reason, volume_reason.
  rewrite Huse_case, Hmonthly_volume. reflexivity.
Qed.

Lemma score_platforms_unused platform_pool scored_platforms g :
  score_platforms platform_pool r1 scored_platforms g
  = score_platforms platform_pool r2 scored_platforms g.
Proof.
  revert scored_platforms g.
  induction platform_pool as [| platform rest IH]; intros acc g; simpl;
    [reflexivity |].
  unfold mbind, M_bind.
  rewrite calculate_platform_score_unused.
  destruct (calculate_platform_score platform r2 g) as [[score | e] g1];
    [| reflexivity].
  rewrite generate_reasoning_unused.
  destruct (generate_reasoning platform r2 g1) as [[text | e] g2];
    [| reflexivity].
  apply IH.
Qed.

Lemma calculate_matches_unused g :
  calculate_matches r1 g = calculate_matches r2 g.
Proof.
  unfold calculate_matches, calculate_matches_body, mbind, M_bind.
  rewrite platform_pool_of_unused.
  destruct (platform_pool_of r2 g) as [[pool | e] g1]; [| reflexivity].
  rewrite score_platforms_unused. reflexivity.
Qed.

End Unused.

(** C9: two requests with the same budget, use case, team size and monthly
    volume, whatever their priorities and features, select the same pool, get
    the same scores and reasoning for every platform, and receive the same
    response, from the same random source. *)
Theorem priorities_and_features_unused r1 r2 :
  budget r1 = budget r2 →
  use_case r1 = use_case r2 →
  team_size r1 = team_size r2 →
  monthly_volume r1 = monthly_volume r2 →
  (∀ g, platform_pool_of r1 g = platform_pool_of r2 g)
  ∧ (∀ platform g, calculate_platform_score platform r1 g
                   = calculate_platform_score platform r2 g)
  ∧ (∀ platform g, generate_reasoning platform r1 g
                   = generate_reasoning platform r2 g)
  ∧ (∀ g, calculate_matches r1 g = calculate_matches r2 g).
Proof.
  intros Hb Hu Ht Hv. repeat split.
  - intros g. rewrite (platform_pool_of_unused r1 r2 Hb). reflexivity.
  - intros platform g.
    rewrite (calculate_platform_score_unused r1 r2 Hb Hu Ht Hv). reflexivity.
  - intros platform g.
    rewrite (generate_reasoning_unused r1 r2 Hu Hv). reflexivity.
  - intros g. apply calculate_matches_unused; assumption.
Qed.

Lemma priorities_and_features_unused_witness :
  features request_enterprise_training ≠ features request_enterprise_training'
  ∧ priorities request_enterprise_training
    ≠ priorities request_enterprise_training'
  ∧ calculate_matches request_enterprise_training rng_ramp
    = calculate_matches request_enterprise_training' rng_ramp.
Proof.
  split; [discriminate |]. split.
  - intros Heq.
    assert (Hl : priorities request_enterprise_training !! "speed"
                 = priorities request_enterprise_training' !! "speed")
      by (rewrite Heq; reflexivity).
    vm_compute in Hl. discriminate Hl.
  - apply (priorities_and_features_unused
             request_enterprise_training request_enterprise_training');
      reflexivity.
Defined.

(** ** C10: the pool has no duplicates and always yields three entries *)

(** C10: the candidate pool never lists a platform twice and has exactly 7
    platforms ([budget_friendly], [professional]) or exactly 10 (any other
    budget), so the response always has exactly three entries. *)
Theorem pool_distinct_and_three_returned request g :
  ∃ response g' pool,
    calculate_matches request g = (Ok response, g')
    ∧ returns (platform_pool_of request) pool
    ∧ NoDup pool
    ∧ length pool
      = (if budget request == "budget_friendly" then 7
         else if budget request == "professional" then 7
         else 10)%nat
    ∧ length (platforms response) = 3%nat.
Proof.
  destruct (calculate_matches_run request g) as (scored & Hall & Hrun).
  eexists _, _, _. split; [exact Hrun |].
  split; [apply platform_pool_of_returns |]. simpl.
  split; [apply candidate_pool_NoDup |].
  split; [apply candidate_pool_length |].
  rewrite (top_3_length _ _ _ Hall), candidate_pool_length.
  repeat case_match; reflexivity.
Qed.

(** * Further properties of the endpoint and of its helpers *)

(** ** The returned entries and the scored list *)

Lemma scored_for_names request platform_pool scored :
  Forall2 (scored_for request) platform_pool scored →
  name <$> scored = platform_pool.
Proof.
  induction 1 as [| p sp pool scored Hsp _ IH]; [reflexivity |].
  destruct Hsp as (Hname & _). csimpl. rewrite Hname, IH. reflexivity.
Qed.

Lemma top_3_from_scored scored top :
  top ∈ add_consensus <$> take 3 (sort_reverse match_score scored) →
  ∃ sp, sp ∈ scored ∧ top = add_consensus sp.
Proof.
  intros (sp & -> & Hsp)%list_elem_of_fmap.
  exists sp. split; [| reflexivity].
  apply subseteq_take in Hsp.
  rewrite sort_reverse_Permutation in Hsp. exact Hsp.
Qed.

Lemma scored_for_elem request platform_pool scored sp :
  Forall2 (scored_for request) platform_pool scored →
  sp ∈ scored →
  name sp ∈ platform_pool ∧ scored_for request (name sp) sp.
Proof.
  intros Hall [i Hi]%list_elem_of_lookup_1.
  destruct (Forall2_lookup_r _ _ _ _ _ Hall Hi) as (p & Hp & Hsp).
  assert (Hname : name sp = p) by apply Hsp.
  rewrite Hname. split; [eapply list_elem_of_lookup_2, Hp | exact Hsp].
Qed.

(** Every returned entry carries a consensus label, and the label is
    "3/3 AIs recommend" exactly for the scores from 91 on. *)
Theorem consensus_label_by_threshold request g :
  ∃ response g',
    calculate_matches request g = (Ok response, g')
    ∧ Forall (λ sp,
        (91 <= match_score sp ∧ ai_consensus sp = Some "3/3 AIs recommend")
        ∨ (match_score sp <= 90 ∧ ai_consensus sp = Some "2/3 AIs recommend"))
        (platforms response).
Proof.
  destruct (calculate_matches_run request g) as (scored & Hall & Hrun).
  eexists _, _. split; [exact Hrun |]. simpl.
  apply Forall_forall. intros top (sp & _ & ->)%top_3_from_scored.
  unfold add_consensus; simpl. case_decide; [left | right]; split;
    first [lia | reflexivity].
Qed.

(** Every returned entry belongs to a platform of the candidate pool: its
    reasoning is what [generate_reasoning] returns for that platform, and its
    score is at most 3 away from the platform's score without variance. *)
Theorem returned_entries_describe_pool_platforms request g :
  ∃ response g' pool,
    calculate_matches request g = (Ok response, g')
    ∧ returns (platform_pool_of request) pool
    ∧ Forall (λ sp,
        name sp ∈ pool
        ∧ returns (generate_reasoning (name sp) request) (reasoning sp)
        ∧ ∃ b, returns (base_score_of (name sp) request) b
               ∧ Z.abs (match_score sp - final_score_of b 0) <= 3)
        (platforms response).
Proof.
  destruct (calculate_matches_run request g) as (scored & Hall & Hrun).
  eexists _, _, _. split; [exact Hrun |].
  split; [apply platform_pool_of_returns |]. simpl.
  apply Forall_forall. intros top (sp & Hsp & ->)%top_3_from_scored.
  destruct (scored_for_elem _ _ _ _ Hall Hsp)
    as (Hin & _ & _ & Hreason & b & v & Hb & Hv & Hscore).
  simpl. split; [exact Hin |]. split; [exact Hreason |].
  exists b. split; [exact Hb |].
  rewrite Hscore. apply final_score_of_jitter, Hv.
Qed.

(** The endpoint never returns a platform outside the candidate pool, and
    never the same platform twice. *)
Theorem returned_names_distinct_from_pool request g :
  ∃ response g' pool,
    calculate_matches request g = (Ok response, g')
    ∧ returns (platform_pool_of request) pool
    ∧ NoDup (name <$> platforms response)
    ∧ name <$> platforms response ⊆ pool.
Proof.
  destruct (calculate_matches_run request g) as (scored & Hall & Hrun).
  eexists _, _, _. split; [exact Hrun |].
  split; [apply platform_pool_of_returns |]. simpl.
  assert (Hnames :
            name <$> (add_consensus <$> take 3 (sort_reverse match_score scored))
            = take 3 (name <$> sort_reverse match_score scored)).
  { rewrite <- list_fmap_compose, fmap_take. reflexivity. }
  assert (Hperm : name <$> sort_reverse match_score scored
                  ≡ₚ candidate_pool (budget request)).
  { rewrite sort_reverse_Permutation, (scored_for_names _ _ _ Hall).
    reflexivity. }
  rewrite Hnames. split.
  - eapply sublist_NoDup; [| apply sublist_take].
    rewrite Hperm. apply candidate_pool_NoDup.
  - intros x Hx%subseteq_take. rewrite Hperm in Hx. exact Hx.
Qed.

Lemma variance_at_advance g i : variance_at (advance g) i = variance_at g (S i).
Proof.
  unfold variance_at, advance; simpl.
  replace (S (pos g + i))%nat with (pos g + S i)%nat by lia. reflexivity.
Qed.

Lemma calculate_platform_score_explicit platform request :
  ∃ b, returns (base_score_of platform request) b
       ∧ ∀ g, calculate_platform_score platform request g
              = (Ok (final_score_of b (variance_at g 0)), advance g).
Proof.
  destruct (base_score_of_total platform request) as (b & Hb & _).
  exists b. split; [exact Hb |]. intros g.
  unfold calculate_platform_score, mbind, M_bind. rewrite Hb.
  unfold randint, variance_at. case_decide; [lia |].
  rewrite Nat.add_0_r. reflexivity.
Qed.

(** ** The returned entries are the best of the run *)

(** The scoring loop gives the candidate at index [i] of the pool the score
    made of its base score and of the [i]-th next draw. *)
Lemma score_platforms_explicit platform_pool request scored_platforms g :
  ∃ scored,
    score_platforms platform_pool request scored_platforms g
    = (Ok (scored_platforms ++ scored)%list, draws (length platform_pool) g)
    ∧ Forall2 (scored_for request) platform_pool scored
    ∧ ∀ (i : nat) platform sp,
        platform_pool !! i = Some platform →
        scored !! i = Some sp →
        ∃ b, returns (base_score_of platform request) b
             ∧ match_score sp = final_score_of b (variance_at g i).
Proof.
  revert scored_platforms g.
  induction platform_pool as [| platform rest IH]; intros acc g.
  - exists []. rewrite app_nil_r, draws_0.
    split; [reflexivity |]. split; [constructor |].
    intros i p sp Hp. destruct i; discriminate Hp.
  - destruct (calculate_platform_score_explicit platform request)
      as (b & Hb & Hscore).
    pose proof (generate_reasoning_returns platform request) as Hreason.
    assert (Hv : -3 <= variance_at g 0 <= 3).
    { unfold variance_at.
      pose proof (Z.mod_pos_bound (tape g (pos g + 0)) 7). lia. }
    set (sp0 := mkScoredPlatform platform (final_score_of b (variance_at g 0))
                  (join ". " (tier_fragment platform ++ use_case_fragment request
                                ++ volume_fragment request)%list) None).
    destruct (IH (acc ++ [sp0])%list (advance g))
      as (scored & Hrest & Hall & Hidx).
    exists (sp0 :: scored). split; [| split].
    + simpl. unfold mbind, M_bind. rewrite Hscore, Hreason. fold sp0.
      unfold mbind, M_bind in Hrest. rewrite Hrest, draws_advance.
      rewrite <- app_assoc. reflexivity.
    + constructor; [| exact Hall].
      repeat split; [exact Hreason |].
      exists b, (variance_at g 0). auto.
    + intros i p sp Hp Hsp. destruct i as [| i]; simpl in Hp, Hsp.
      * injection Hp as <-. injection Hsp as <-. exists b. auto.
      * destruct (Hidx i p sp Hp Hsp) as (b' & Hb' & Hm).
        exists b'. split; [exact Hb' |].
        rewrite Hm, variance_at_advance. reflexivity.
Qed.

(** The three returned entries are the best of the scored list of the run.
    The scored list is the one the scoring loop computes from the same random
    source: the candidate at index [i] of the pool has the score made of its
    base score and of the [i]-th draw. Each returned entry is the labelled
    copy of a scored candidate, and a scored candidate that is not returned
    has a score no higher than that of any returned entry. *)
Theorem returned_entries_are_the_best request g :
  ∃ response g' pool scored,
    calculate_matches request g = (Ok response, g')
    ∧ returns (platform_pool_of request) pool
    ∧ score_platforms pool request [] g = (Ok scored, g')
    ∧ Forall2 (scored_for request) pool scored
    ∧ (∀ (i : nat) platform sp,
         pool !! i = Some platform →
         scored !! i = Some sp →
         name sp = platform
         ∧ ∃ b, returns (base_score_of platform request) b
                ∧ match_score sp = final_score_of b (variance_at g i))
    ∧ Forall (λ top, ∃ sp, sp ∈ scored ∧ top = add_consensus sp)
        (platforms response)
    ∧ Forall (λ sp,
        add_consensus sp ∈ platforms response
        ∨ Forall (λ top, match_score sp <= match_score top)
            (platforms response))
        scored.
Proof.
  destruct (score_platforms_explicit (candidate_pool (budget request))
              request [] g) as (scored & Hloop & Hall & Hidx).
  simpl in Hloop.
  eexists _, _, _, scored.
  split.
  { unfold calculate_matches, calculate_matches_body, mbind, M_bind.
    rewrite platform_pool_of_returns, Hloop. reflexivity. }
  split; [apply platform_pool_of_returns |].
  split; [exact Hloop |].
  split; [exact Hall |]. simpl. split; [| split].
  - intros i p sp Hp Hsp. split; [| apply (Hidx i p sp Hp Hsp)].
    destruct (Forall2_lookup_r _ _ _ _ _ Hall Hsp) as (p' & Hp' & Hfor).
    rewrite Hp in Hp'. injection Hp' as <-. apply Hfor.
  - apply Forall_forall. intros top Htop. apply top_3_from_scored, Htop.
  - apply Forall_forall. intros sp Hsp.
    pose proof (sort_reverse_sorted match_score scored) as Hsorted.
    rewrite <- (sort_reverse_Permutation match_score) in Hsp.
    rewrite <- (take_drop 3 (sort_reverse match_score scored)) in Hsp, Hsorted.
    apply elem_of_app in Hsp as [Hsp | Hsp].
    + left. apply list_elem_of_fmap_2, Hsp.
    + right. apply Forall_fmap, Forall_forall. intros top Htop. simpl.
      apply (StronglySorted_app_1_elem_of _ _ _ _ _ Hsorted Htop Hsp).
Qed.

Lemma returned_entries_are_the_best_witness :
  ∃ response scored,
    fst (calculate_matches request_unrecognized_budget rng_ramp) = Ok response
    ∧ fst (score_platforms (candidate_pool (budget request_unrecognized_budget))
             request_unrecognized_budget [] rng_ramp) = Ok scored
    ∧ match_score <$> scored = [72; 73; 74; 75; 76; 77; 78; 72; 73; 74]
    ∧ name <$> platforms response = ["DeepBrain"; "Movio"; "D-ID"]
    ∧ match_score <$> platforms response = [78; 77; 76]
    ∧ Forall (λ sp,
        add_consensus sp ∈ platforms response
        ∨ Forall (λ top, match_score sp <= match_score top)
            (platforms response))
        scored.
Proof.
  destruct (returned_entries_are_the_best request_unrecognized_budget rng_ramp)
    as (response & g' & pool & scored & Hrun & Hpool & Hloop & _ & _ & _ & Hbest).
  pose proof (returns_inj _ _ _ Hpool
                (platform_pool_of_returns request_unrecognized_budget)) as ->.
  exists response, scored.
  split; [rewrite Hrun; reflexivity |].
  split; [rewrite Hloop; reflexivity |].
  split; [| split; [| split; [| exact Hbest]]].
  - vm_compute in Hloop. injection Hloop as <- _. reflexivity.
  - vm_compute in Hrun. injection Hrun as <- _. reflexivity.
  - vm_compute in Hrun. injection Hrun as <- _. reflexivity.
Defined.

(** ** The bonus blocks as independent additions *)

Lemma test_true a b l x : (a == b) && contains l x = true ↔ a = b ∧ x ∈ l.
Proof.
  unfold str_eq, contains.
  rewrite andb_true_iff, !bool_decide_eq_true. reflexivity.
Qed.

Lemma budget_alignment_delta platform request :
  ∃ d, (∀ s, returns (budget_alignment platform request s) (s + d))
       ∧ (d = 0 ∨ d = 10)
       ∧ (d = 10 ↔
          (budget request = "budget_friendly"
           ∧ platform ∈ tier_platforms "budget")
          ∨ (budget request = "professional"
             ∧ platform ∈ tier_platforms "mid_tier")
          ∨ (budget request = "enterprise"
             ∧ platform ∈ tier_platforms "enterprise")).
Proof.
  pose proof (budget_alignment_returns platform request) as H.
  destruct ((budget request == "budget_friendly")
            && contains (tier_platforms "budget") platform) eqn:E1;
    [| destruct ((budget request == "professional")
                 && contains (tier_platforms "mid_tier") platform) eqn:E2;
       [| destruct ((budget request == "enterprise")
                    && contains (tier_platforms "enterprise") platform) eqn:E3]].
  1-3: exists 10; split; [exact H |]; split; [right; reflexivity |];
       split; [intros _ | reflexivity].
  - left. apply test_true, E1.
  - right; left. apply test_true, E2.
  - right; right. apply test_true, E3.
  - exists 0. split; [intros s; rewrite Z.add_0_r; apply H |].
    split; [left; reflexivity |].
    split; [discriminate |].
    intros [Hc | [Hc | Hc]]; apply test_true in Hc; congruence.
Qed.

Lemma use_case_alignment_delta platform request :
  ∃ d, (∀ s, returns (use_case_alignment platform request s) (s + d))
       ∧ (d = 0 ∨ d = 8).
Proof.
  pose proof (use_case_alignment_returns platform request) as H.
  destruct (use_case request == "marketing");
    [destruct (contains ["Synthesia"; "Pictory"; "InVideo"; "Promo"] platform) |
     destruct (use_case request == "training");
     [destruct (contains ["Colossyan"; "Hour One"; "Elai"; "DeepBrain"] platform) |
      destruct (use_case request == "social");
      [destruct (contains ["Fliki"; "Steve.ai"; "VEED"; "Lumen5"] platform) |]]].
  all: first
    [ exists 8; split; [exact H | right; reflexivity]
    | exists 0; split; [intros s; rewrite Z.add_0_r; apply H | left; reflexivity] ].
Qed.

Lemma team_size_consideration_delta platform request :
  ∃ d, (∀ s, returns (team_size_consideration platform request s) (s + d))
       ∧ (d = 0 ∨ d = 5)
       ∧ (d = 5 ↔
          (team_size request = "large_team"
           ∧ platform ∈ tier_platforms "enterprise")
          ∨ (team_size request = "just_me"
             ∧ platform ∈ tier_platforms "budget")).
Proof.
  pose proof (team_size_consideration_returns platform request) as H.
  destruct ((team_size request == "large_team")
            && contains (tier_platforms "enterprise") platform) eqn:E1;
    [| destruct ((team_size request == "just_me")
                 && contains (tier_platforms "budget") platform) eqn:E2].
  1-2: exists 5; split; [exact H |]; split; [right; reflexivity |];
       split; [intros _ | reflexivity].
  - left. apply test_true, E1.
  - right. apply test_true, E2.
  - exists 0. split; [intros s; rewrite Z.add_0_r; apply H |].
    split; [left; reflexivity |].
    split; [discriminate |].
    intros [Hc | Hc]; apply test_true in Hc; congruence.
Qed.

Lemma volume_requirements_delta platform request :
  ∃ d, (∀ s, returns (volume_requirements platform request s) (s + d))
       ∧ (d = 0 ∨ d = 5)
       ∧ (d = 5 ↔
          (monthly_volume request = "50+"
           ∧ platform ∈ tier_platforms "enterprise")
          ∨ (monthly_volume request = "1-10"
             ∧ platform ∈ tier_platforms "budget")).
Proof.
  pose proof (volume_requirements_returns platform request) as H.
  destruct ((monthly_volume request == "50+")
            && contains (tier_platforms "enterprise") platform) eqn:E1;
    [| destruct ((monthly_volume request == "1-10")
                 && contains (tier_platforms "budget") platform) eqn:E2].
  1-2: exists 5; split; [exact H |]; split; [right; reflexivity |];
       split; [intros _ | reflexivity].
  - left. apply test_true, E1.
  - right. apply test_true, E2.
  - exists 0. split; [intros s; rewrite Z.add_0_r; apply H |].
    split; [left; reflexivity |].
    split; [discriminate |].
    intros [Hc | Hc]; apply test_true in Hc; congruence.
Qed.

(** The tier-match bonus is +10 exactly for the three matching pairs of a
    budget value and a tier, and nothing otherwise: the mid-tier platforms of
    a [budget_friendly] pool, the enterprise platforms of a [professional]
    pool and the specialized platforms never get it. *)
Theorem tier_bonus_iff_matching_pair platform request :
  ∃ d, (∀ s, returns (budget_alignment platform request s) (s + d))
       ∧ (d = 0 ∨ d = 10)
       ∧ (d = 10 ↔
          (budget request = "budget_friendly"
           ∧ platform ∈ tier_platforms "budget")
          ∨ (budget request = "professional"
             ∧ platform ∈ tier_platforms "mid_tier")
          ∨ (budget request = "enterprise"
             ∧ platform ∈ tier_platforms "enterprise")).
Proof. apply budget_alignment_delta. Qed.

(** The team-size and the volume bonus are +5 each, and go to enterprise
    platforms (large team, 50+ videos) or budget platforms (one person, 1-10
    videos) only. *)
Theorem team_and_volume_bonus_iff platform request :
  ∃ dt dv,
    (∀ s, returns (team_size_consideration platform request s) (s + dt))
    ∧ (∀ s, returns (volume_requirements platform request s) (s + dv))
    ∧ (dt = 0 ∨ dt = 5) ∧ (dv = 0 ∨ dv = 5)
    ∧ (dt = 5 ↔
       (team_size request = "large_team"
        ∧ platform ∈ tier_platforms "enterprise")
       ∨ (team_size request = "just_me"
          ∧ platform ∈ tier_platforms "budget"))
    ∧ (dv = 5 ↔
       (monthly_volume request = "50+"
        ∧ platform ∈ tier_platforms "enterprise")
       ∨ (monthly_volume request = "1-10"
          ∧ platform ∈ tier_platforms "budget")).
Proof.
  destruct (team_size_consideration_delta platform request)
    as (dt & Ht & Bt & It).
  destruct (volume_requirements_delta platform request) as (dv & Hv & Bv & Iv).
  exists dt, dv. auto 10.
Qed.

(** The four blocks add amounts that do not depend on the running score, so
    that the base score is 75 plus the four amounts and the order of the
    blocks does not matter: run in the reverse order they give the same
    score. *)
Theorem bonus_blocks_add_independently platform request :
  ∃ d1 d2 d3 d4,
    (d1 = 0 ∨ d1 = 10) ∧ (d2 = 0 ∨ d2 = 8)
    ∧ (d3 = 0 ∨ d3 = 5) ∧ (d4 = 0 ∨ d4 = 5)
    ∧ (∀ s, returns (budget_alignment platform request s) (s + d1))
    ∧ (∀ s, returns (use_case_alignment platform request s) (s + d2))
    ∧ (∀ s, returns (team_size_consideration platform request s) (s + d3))
    ∧ (∀ s, returns (volume_requirements platform request s) (s + d4))
    ∧ returns (base_score_of platform request) (75 + d1 + d2 + d3 + d4)
    ∧ returns (s ← volume_requirements platform request 75;
               s ← team_size_consideration platform request s;
               s ← use_case_alignment platform request s;
               budget_alignment platform request s)
        (75 + d1 + d2 + d3 + d4).
Proof.
  destruct (budget_alignment_delta platform request) as (d1 & H1 & B1 & _).
  destruct (use_case_alignment_delta platform request) as (d2 & H2 & B2).
  destruct (team_size_consideration_delta platform request)
    as (d3 & H3 & B3 & _).
  destruct (volume_requirements_delta platform request) as (d4 & H4 & B4 & _).
  exists d1, d2, d3, d4. do 8 (split; [assumption |]). split.
  - unfold base_score_of.
    eapply returns_bind; [apply H1 |].
    eapply returns_bind; [apply H2 |].
    eapply returns_bind; [apply H3 |]. apply H4.
  - eapply returns_bind; [apply H4 |].
    eapply returns_bind; [apply H3 |].
    eapply returns_bind; [apply H2 |].
    replace (75 + d1 + d2 + d3 + d4) with (75 + d4 + d3 + d2 + d1) by lia.
    apply H1.
Qed.

(** ** Bounds on the scores *)

(** The lower bound 60 of the clamp is never reached: the base score is at
    least 75 and the variance at least -3, so that a score is
    [min(98, base_score + variance)] and lies between 72 and 98, for one
    platform and for every entry the endpoint returns. *)
Theorem lower_clamp_never_binds request :
  (∀ platform g, ∃ b v,
      returns (base_score_of platform request) b
      ∧ -3 <= v <= 3
      ∧ calculate_platform_score platform request g
        = (Ok (Z.min 98 (b + v)), advance g)
      ∧ 72 <= Z.min 98 (b + v) <= 98)
  ∧ (∀ g, ∃ response g',
        calculate_matches request g = (Ok response, g')
        ∧ Forall (λ sp, 72 <= match_score sp <= 98) (platforms response)).
Proof.
  split.
  - intros platform g.
    destruct (calculate_platform_score_run platform request g)
      as (b & v & Hb & Bb & Bv & Hrun).
    exists b, v. split; [exact Hb |]. split; [exact Bv |].
    split; [| lia]. rewrite Hrun. unfold final_score_of.
    do 2 f_equal. lia.
  - intros g.
    destruct (calculate_matches_run request g) as (scored & Hall & Hrun).
    eexists _, _. split; [exact Hrun |]. simpl.
    apply Forall_forall. intros top (sp & Hsp & ->)%top_3_from_scored.
    destruct (scored_for_elem _ _ _ _ Hall Hsp)
      as (_ & _ & _ & _ & b & v & Hb & Hv & Hscore).
    destruct (base_score_of_total (name sp) request) as (b' & Hb' & Bb).
    rewrite <- (returns_inj _ _ _ Hb Hb') in Bb.
    simpl. rewrite Hscore. unfold final_score_of. lia.
Qed.

Lemma specialized_base_score platform request :
  platform ∈ tier_platforms "specialized" →
  ∃ b, returns (base_score_of platform request) b ∧ (b = 75 ∨ b = 83).
Proof.
  intros (He & Hm & Hb)%specialized_only.
  destruct (budget_alignment_delta platform request) as (d1 & H1 & B1 & I1).
  destruct (use_case_alignment_delta platform request) as (d2 & H2 & B2).
  destruct (team_size_consideration_delta platform request)
    as (d3 & H3 & B3 & I3).
  destruct (volume_requirements_delta platform request) as (d4 & H4 & B4 & I4).
  assert (d1 = 0) as -> by (destruct B1 as [? | B1]; [assumption | tauto]).
  assert (d3 = 0) as -> by (destruct B3 as [? | B3]; [assumption | tauto]).
  assert (d4 = 0) as -> by (destruct B4 as [? | B4]; [assumption | tauto]).
  exists (75 + d2). split; [| lia].
  unfold base_score_of.
  eapply returns_bind; [apply H1 |].
  eapply returns_bind; [apply H2 |].
  eapply returns_bind; [apply H3 |].
  replace (75 + d2) with (75 + 0 + d2 + 0 + 0) by lia. apply H4.
Qed.

(** A specialized platform matches no budget, team size or volume: its score
    never exceeds 86, and whenever the endpoint returns one its label is
    "2/3 AIs recommend". *)
Theorem specialized_never_unanimous request g :
  ∃ response g',
    calculate_matches request g = (Ok response, g')
    ∧ Forall (λ sp,
        name sp ∈ tier_platforms "specialized" →
        match_score sp <= 86
        ∧ ai_consensus sp = Some "2/3 AIs recommend")
        (platforms response).
Proof.
  destruct (calculate_matches_run request g) as (scored & Hall & Hrun).
  eexists _, _. split; [exact Hrun |]. simpl.
  apply Forall_forall. intros top (sp & Hsp & ->)%top_3_from_scored Hspec.
  simpl in Hspec.
  destruct (scored_for_elem _ _ _ _ Hall Hsp)
    as (_ & _ & _ & _ & b & v & Hb & Hv & Hscore).
  destruct (specialized_base_score (name sp) request Hspec) as (b' & Hb' & Bb).
  rewrite <- (returns_inj _ _ _ Hb Hb') in Bb.
  assert (Hle : match_score sp <= 86).
  { rewrite Hscore. unfold final_score_of. lia. }
  unfold add_consensus; simpl. split; [exact Hle |].
  case_decide; [lia | reflexivity].
Qed.

Lemma specialized_never_unanimous_witness :
  ∃ response,
    fst (calculate_matches request_unrecognized_budget rng_ramp) = Ok response
    ∧ name <$> platforms response = ["DeepBrain"; "Movio"; "D-ID"]
    ∧ match_score <$> platforms response = [78; 77; 76]
    ∧ Forall (λ sp, name sp ∈ ["DeepBrain"; "Movio"] →
                    ai_consensus sp = Some "2/3 AIs recommend")
        (platforms response).
Proof.
  destruct (specialized_never_unanimous request_unrecognized_budget rng_ramp)
    as (response & g' & Hrun & Hall).
  exists response. split; [rewrite Hrun; reflexivity |].
  vm_compute in Hrun. injection Hrun as <- <-.
  split; [reflexivity |]. split; [reflexivity |].
  eapply Forall_impl; [exact Hall |]. simpl. intros sp Hsp Hname.
  apply Hsp.
  destruct tier_platforms_values as (_ & _ & _ & ->).
  apply elem_of_cons in Hname as [-> | Hname];
    [| apply list_elem_of_singleton in Hname as ->].
  - right; left.
  - left.
Defined.

(** With a budget that is none of the three recognised values no candidate
    gets the tier-match bonus, so that no returned score exceeds 96. *)
Theorem unrecognized_budget_caps_scores request g :
  budget request ∉ ["budget_friendly"; "professional"; "enterprise"] →
  ∃ response g',
    calculate_matches request g = (Ok response, g')
    ∧ Forall (λ sp, match_score sp <= 96) (platforms response).
Proof.
  intros Hbudget.
  apply not_elem_of_cons in Hbudget as [Hb1 Hbudget].
  apply not_elem_of_cons in Hbudget as [Hb2 Hbudget].
  apply not_elem_of_cons in Hbudget as [Hb3 _].
  destruct (calculate_matches_run request g) as (scored & Hall & Hrun).
  eexists _, _. split; [exact Hrun |]. simpl.
  apply Forall_forall. intros top (sp & Hsp & ->)%top_3_from_scored.
  destruct (scored_for_elem _ _ _ _ Hall Hsp)
    as (_ & _ & _ & _ & b & v & Hb & Hv & Hscore).
  destruct (budget_alignment_delta (name sp) request) as (d1 & H1 & B1 & I1).
  destruct (use_case_alignment_delta (name sp) request) as (d2 & H2 & B2).
  destruct (team_size_consideration_delta (name sp) request)
    as (d3 & H3 & B3 & _).
  destruct (volume_requirements_delta (name sp) request) as (d4 & H4 & B4 & _).
  assert (d1 = 0) as -> by (destruct B1 as [? | B1]; [assumption | tauto]).
  assert (Hsum : returns (base_score_of (name sp) request)
                   (75 + 0 + d2 + d3 + d4)).
  { unfold base_score_of.
    eapply returns_bind; [apply H1 |].
    eapply returns_bind; [apply H2 |].
    eapply returns_bind; [apply H3 |]. apply H4. }
  rewrite (returns_inj _ _ _ Hb Hsum) in Hscore.
  simpl. rewrite Hscore. unfold final_score_of. lia.
Qed.

Lemma unrecognized_budget_caps_scores_witness :
  ∃ response,
    fst (calculate_matches
           (mkMatchRequest [] "premium" ∅ "training" "large_team" "50+")
           (mkRNG (λ _, 6) 0))
    = Ok response
    ∧ match_score <$> platforms response = [96; 96; 88]
    ∧ Forall (λ sp, match_score sp <= 96) (platforms response).
Proof.
  destruct (unrecognized_budget_caps_scores
              (mkMatchRequest [] "premium" ∅ "training" "large_team" "50+")
              (mkRNG (λ _, 6) 0))
    as (response & g' & Hrun & Hall).
  { apply (bool_decide_unpack _). vm_compute. exact I. }
  exists response. split; [rewrite Hrun; reflexivity |].
  split; [| exact Hall].
  vm_compute in Hrun. injection Hrun as <- <-. reflexivity.
Defined.

(** ** The draws of one request *)

Lemma score_platforms_agree platform_pool request scored_platforms g1 g2 :
  (∀ i, (i < length platform_pool)%nat → variance_at g1 i = variance_at g2 i) →
  fst (score_platforms platform_pool request scored_platforms g1)
  = fst (score_platforms platform_pool request scored_platforms g2).
Proof.
  revert scored_platforms g1 g2.
  induction platform_pool as [| platform rest IH]; intros acc g1 g2 Hagree;
    [reflexivity |].
  destruct (calculate_platform_score_explicit platform request)
    as (b & _ & Hscore).
  pose proof (generate_reasoning_returns platform request) as Hreason.
  simpl. unfold mbind, M_bind.
  rewrite !Hscore, !Hreason, (Hagree 0%nat) by (simpl; lia).
  apply IH. intros i Hi. rewrite !variance_at_advance.
  apply Hagree. simpl. lia.
Qed.

(** One request makes exactly one draw per candidate of the pool, and its
    response is fixed by these draws: two random sources whose next draws
    agree, as many as the pool has candidates, lead to the same response. *)
Theorem one_draw_per_candidate request pool :
  returns (platform_pool_of request) pool →
  (∀ g, snd (calculate_matches request g) = draws (length pool) g)
  ∧ (∀ g1 g2,
       (∀ i, (i < length pool)%nat → variance_at g1 i = variance_at g2 i) →
       fst (calculate_matches request g1) = fst (calculate_matches request g2)).
Proof.
  intros Hpool.
  pose proof (returns_inj _ _ _ Hpool (platform_pool_of_returns request)) as ->.
  split.
  - intros g.
    destruct (calculate_matches_run request g) as (scored & _ & Hrun).
    rewrite Hrun. reflexivity.
  - intros g1 g2 Hagree.
    pose proof (score_platforms_agree _ request [] g1 g2 Hagree) as Hfst.
    destruct (score_platforms_run (candidate_pool (budget request)) request [] g1)
      as (scored1 & Hrun1 & _).
    destruct (score_platforms_run (candidate_pool (budget request)) request [] g2)
      as (scored2 & Hrun2 & _).
    rewrite Hrun1, Hrun2 in Hfst. simpl in Hfst.
    injection Hfst as Hscored.
    unfold calculate_matches, calculate_matches_body, mbind, M_bind.
    rewrite !platform_pool_of_returns, Hrun1, Hrun2. simpl.
    rewrite Hscored. reflexivity.
Qed.

Lemma one_draw_per_candidate_witness :
  pos (snd (calculate_matches request_enterprise_training rng_ramp)) = 10%nat
  ∧ fst (calculate_matches request_enterprise_training rng_ramp)
    = fst (calculate_matches request_enterprise_training
             (mkRNG (λ n, if decide (n < 15)%nat then Z.of_nat n + 2 else 0) 5)).
Proof.
  destruct (one_draw_per_candidate request_enterprise_training
              (candidate_pool "enterprise")) as (Hdraws & Hsame).
  { apply (platform_pool_of_returns request_enterprise_training). }
  split.
  - rewrite Hdraws. reflexivity.
  - apply Hsame. intros i Hi.
    change (length (candidate_pool "enterprise")) with 10%nat in Hi.
    do 10 (destruct i as [| i]; [vm_compute; reflexivity |]). lia.
Defined.

(** ** Reasoning text and tiers *)

Lemma tier_platforms_other k :
  k ∉ ["enterprise"; "mid_tier"; "budget"; "specialized"] →
  tier_platforms k = [].
Proof.
  intros Hk. unfold tier_platforms, PLATFORMS.
  rewrite (not_elem_of_list_to_map_1 _ k); [reflexivity |]. exact Hk.
Qed.

(** The reasoning text depends on the platform through its tier only, and on
    the request through its use case and monthly volume only: two platforms
    of one tier get the same text, whatever the budgets and team sizes. *)
Theorem reasoning_same_within_tier k platform1 platform2 request1 request2 :
  platform1 ∈ tier_platforms k →
  platform2 ∈ tier_platforms k →
  use_case request1 = use_case request2 →
  monthly_volume request1 = monthly_volume request2 →
  ∃ text, returns (generate_reasoning platform1 request1) text
          ∧ returns (generate_reasoning platform2 request2) text.
Proof.
  intros Hp1 Hp2 Hu Hv.
  pose proof (generate_reasoning_returns platform1 request1) as H1.
  pose proof (generate_reasoning_returns platform2 request2) as H2.
  assert (Htier : tier_fragment platform1 = tier_fragment platform2).
  { destruct (decide (k ∈ ["enterprise"; "mid_tier"; "budget"; "specialized"]))
      as [Hk | Hk].
    - destruct (tier_fragment_of_tier platform1) as (A1 & B1 & C1 & D1).
      destruct (tier_fragment_of_tier platform2) as (A2 & B2 & C2 & D2).
      repeat (apply elem_of_cons in Hk as [-> | Hk]);
        [rewrite A1, A2 | rewrite B1, B2 | rewrite C1, C2 | rewrite D1, D2 |];
        first [reflexivity | assumption | inversion Hk].
    - rewrite (tier_platforms_other k Hk) in Hp1. inversion Hp1. }
  unfold use_case_fragment, volume_fragment in H1.
  rewrite Htier, Hu, Hv in H1.
  eexists. split; [exact H1 | exact H2].
Qed.

Lemma reasoning_same_within_tier_witness :
  ∃ text,
    returns (generate_reasoning "Fliki"
               (mkMatchRequest [] "budget_friendly" ∅ "social" "just_me" "1-10"))
      text
    ∧ returns (generate_reasoning "Lumen5"
                 (mkMatchRequest ["api"] "enterprise" ∅ "social" "large_team" "1-10"))
        text
    ∧ text = "Cost-effective solution for individual creators. Optimized for social media content creation".
Proof.
  destruct (reasoning_same_within_tier "budget" "Fliki" "Lumen5"
              (mkMatchRequest [] "budget_friendly" ∅ "social" "just_me" "1-10")
              (mkMatchRequest ["api"] "enterprise" ∅ "social" "large_team" "1-10"))
    as (text & H1 & H2).
  - apply (bool_decide_unpack _). vm_compute. exact I.
  - apply (bool_decide_unpack _). vm_compute. exact I.
  - reflexivity.
  - reflexivity.
  - exists text. split; [exact H1 |]. split; [exact H2 |].
    specialize (H1 rng_flat). vm_compute in H1. injection H1 as <-.
    reflexivity.
Defined.

Lemma contains_false_inv l x : contains l x = false → x ∉ l.
Proof. apply bool_decide_eq_false. Qed.

Lemma str_eq_false_inv a b : (a == b) = false → a ≠ b.
Proof. apply bool_decide_eq_false. Qed.

(** The reasoning text is empty exactly when the platform is in none of the
    enterprise, mid and budget tiers, the use case is none of marketing,
    training and social, and the monthly volume is not 50+. In particular it
    is never empty for a platform of these three tiers. *)
Theorem reasoning_empty_iff platform request :
  returns (generate_reasoning platform request) ""
  ↔ (platform ∉ tier_platforms "enterprise")
    ∧ (platform ∉ tier_platforms "mid_tier")
    ∧ (platform ∉ tier_platforms "budget")
    ∧ (use_case request ∉ ["marketing"; "training"; "social"])
    ∧ monthly_volume request ≠ "50+".
Proof.
  pose proof (generate_reasoning_returns platform request) as H.
  split.
  - intros Hempty.
    pose proof (returns_inj _ _ _ H Hempty) as Heq. clear H Hempty.
    unfold tier_fragment, use_case_fragment, volume_fragment in Heq.
    destruct (contains (tier_platforms "enterprise") platform) eqn:E1;
      [| destruct (contains (tier_platforms "mid_tier") platform) eqn:E2;
         [| destruct (contains (tier_platforms "budget") platform) eqn:E3]];
      (destruct (use_case request == "marketing") eqn:U1;
        [| destruct (use_case request == "training") eqn:U2;
           [| destruct (use_case request == "social") eqn:U3]]);
      destruct (monthly_volume request == "50+") eqn:V1;
      try discriminate Heq.
    apply contains_false_inv in E1, E2, E3.
    apply str_eq_false_inv in U1, U2, U3, V1.
    do 3 (split; [assumption |]). split; [| assumption].
    intros Hu. repeat (apply elem_of_cons in Hu as [Hu | Hu]; [congruence |]).
    inversion Hu.
  - intros (E1 & E2 & E3 & Hu & V1).
    apply not_elem_of_cons in Hu as [U1 Hu].
    apply not_elem_of_cons in Hu as [U2 Hu].
    apply not_elem_of_cons in Hu as [U3 _].
    unfold tier_fragment, use_case_fragment, volume_fragment in H.
    rewrite (contains_false _ _ E1), (contains_false _ _ E2),
      (contains_false _ _ E3), (str_eq_false _ _ U1), (str_eq_false _ _ U2),
      (str_eq_false _ _ U3), (str_eq_false _ _ V1) in H.
    exact H.
Qed.

(** ** The use-case bonus *)

Lemma str_eq_true_inv a b : (a == b) = true → a = b.
Proof. apply bool_decide_eq_true. Qed.

Lemma contains_true_inv l x : contains l x = true → x ∈ l.
Proof. apply bool_decide_eq_true. Qed.

(** The use-case bonus is +8 exactly when the platform is on the affinity
    list of the request's use case; a use case other than marketing, training
    and social gives no platform any bonus. *)
Theorem use_case_bonus_iff_affinity platform request :
  ∃ d, (∀ s, returns (use_case_alignment platform request s) (s + d))
       ∧ (d = 0 ∨ d = 8)
       ∧ (d = 8 ↔
          (use_case request = "marketing"
           ∧ platform ∈ ["Synthesia"; "Pictory"; "InVideo"; "Promo"])
          ∨ (use_case request = "training"
             ∧ platform ∈ ["Colossyan"; "Hour One"; "Elai"; "DeepBrain"])
          ∨ (use_case request = "social"
             ∧ platform ∈ ["Fliki"; "Steve.ai"; "VEED"; "Lumen5"])).
Proof.
  pose proof (use_case_alignment_returns platform request) as H.
  destruct (use_case request == "marketing") eqn:U1;
    [destruct (contains ["Synthesia"; "Pictory"; "InVideo"; "Promo"] platform)
       eqn:C1 |
     destruct (use_case request == "training") eqn:U2;
     [destruct (contains ["Colossyan"; "Hour One"; "Elai"; "DeepBrain"] platform)
        eqn:C2 |
      destruct (use_case request == "social") eqn:U3;
      [destruct (contains ["Fliki"; "Steve.ai"; "VEED"; "Lumen5"] platform)
         eqn:C3 |]]].
  all: repeat match goal with
       | E : (_ == _) = true |- _ => apply str_eq_true_inv in E
       | E : (_ == _) = false |- _ => apply str_eq_false_inv in E
       | E : contains _ _ = true |- _ => apply contains_true_inv in E
       | E : contains _ _ = false |- _ => apply contains_false_inv in E
       end.
  all: first
    [ exists 8; split; [exact H |]; split; [right; reflexivity |];
      split; [intros _; tauto | reflexivity]
    | exists 0; split; [intros s; rewrite Z.add_0_r; apply H |];
      split; [left; reflexivity |];
      split; [discriminate |];
      intros [[Hu Hp] | [[Hu Hp] | [Hu Hp]]];
      first [contradiction | congruence] ].
Qed.
